(** * foreman_ldap: reconciliation of one Foreman LDAP authentication source

    A shallow embedding of [foreman_ldap.py] and of
    [module_utils/foreman_utils.py], and the properties of the
    reconciliation that follow from the code.

    Python values are a small inductive type, dictionaries are finite maps
    keyed by strings, and a function that talks to the Foreman server is a
    computation over the server's state and the list of API calls made so
    far, ending in a return value or in one of the three ways the code leaves
    a function early. *)

From Stdlib Require Import ZArith String.
From stdpp Require Import gmap strings list fin_maps.

Local Open Scope string_scope.
Local Open Scope Z_scope.

(** ** Python values *)

#[warnings="-register-all"]
Inductive value : Type :=
| VNone
| VBool (b : bool)
| VInt (n : Z)
| VStr (s : string)
| VList (l : list value).

(** A [dict] with string keys. *)
Abbreviation dict := (gmap string value).

(** [bool(v)]: [None], [False], [0], [''] and [[]] are false. *)
Definition truthy (v : value) : bool :=
  match v with
  | VNone => false
  | VBool b => b
  | VInt n => negb (n =? 0)
  | VStr s => negb (String.eqb s EmptyString)
  | VList l => match l with [] => false | _ => true end
  end.

(** [a == b].  [bool] is a subclass of [int], so [True == 1]; lists are
    compared element by element. *)
Fixpoint py_eq (a b : value) : bool :=
  match a, b with
  | VNone, VNone => true
  | VBool x, VBool y => Bool.eqb x y
  | VBool x, VInt n => Z.b2z x =? n
  | VInt n, VBool x => n =? Z.b2z x
  | VInt n, VInt m => n =? m
  | VStr s, VStr t => String.eqb s t
  | VList l, VList k =>
      (fix all2 (l k : list value) : bool :=
         match l, k with
         | [], [] => true
         | x :: l', y :: k' => py_eq x y && all2 l' k'
         | _, _ => false
         end) l k
  | _, _ => false
  end.

(** [d.get(key)]: the value, or [None] for a missing key. *)
Definition dict_get (d : dict) (key : string) : value :=
  default VNone (d !! key).

(** [key in d]. *)
Definition dict_has (d : dict) (key : string) : bool :=
  bool_decide (is_Some (d !! key)).

(** What a client lookup hands back: [None] or a dictionary. *)
Abbreviation object := (option dict).

(** [bool(o)] for such an object: [None] and the empty dictionary are false. *)
Definition truthy_obj (o : object) : bool :=
  match o with
  | Some d => negb (bool_decide (d = ∅))
  | None => false
  end.

(** [o.get(key)], used by the code only on objects that are true. *)
Definition obj_get (o : object) (key : string) : value :=
  match o with
  | Some d => dict_get d key
  | None => VNone
  end.

(** ** Ways a call ends *)

Inductive outcome (A : Type) : Type :=
| Return (a : A)                  (* a normal return *)
| ForemanError (message : string) (* the client's exception, [e.message] *)
| FailJson (msg : string)         (* [module.fail_json]: the run ends here *)
| NameError (name : string).      (* an unbound name: no handler catches it *)

Arguments Return {A} a.
Arguments ForemanError {A} message.
Arguments FailJson {A} msg.
Arguments NameError {A} name.

Definition obind {A B} (o : outcome A) (f : A → outcome B) : outcome B :=
  match o with
  | Return a => f a
  | ForemanError e => ForemanError e
  | FailJson m => FailJson m
  | NameError n => NameError n
  end.

(** ** The comparator *)

(** [ldaps_equal] calls [organizations_equal] and [locations_equal].  Neither
    [foreman_ldap.py] nor [foreman_utils.py], whose names it imports, defines
    a function of that name, so evaluating the name raises [NameError]. *)
Definition organizations_equal (data ldap : dict) : outcome bool :=
  NameError "organizations_equal".

Definition locations_equal (data ldap : dict) : outcome bool :=
  NameError "locations_equal".

(** The test of the loop body:
    [(key in data) and (data.get(key) != ldap.get(key))]. *)
Definition key_differs (data ldap : dict) (key : string) : bool :=
  dict_has data key && negb (py_eq (dict_get data key) (dict_get ldap key)).

(** What follows the loop. *)
Definition associations_equal (data ldap : dict) : outcome bool :=
  obind (organizations_equal data ldap) (λ o,
    if negb o then Return false
    else obind (locations_equal data ldap) (λ l,
      if negb l then Return false else Return true)).

Fixpoint ldaps_equal (data ldap : dict) (cmp_keys : list string)
  : outcome bool :=
  match cmp_keys with
  | key :: rest =>
      if key_differs data ldap key then Return false
      else ldaps_equal data ldap rest
  | [] => associations_equal data ldap
  end.

(** ** The Foreman client *)

(** The calls the module makes on the client, with their arguments. *)
Inductive call : Type :=
| SearchAuthSourceLdap (data : dict)
| GetAuthSourceLdap (id : value)
| SearchOrganization (data : dict)
| SearchLocation (data : dict)
| CreateAuthSourceLdap (data : dict)
| UpdateAuthSourceLdap (id : value) (data : dict)
| DeleteAuthSourceLdap (id : value).

(** The calls that change the server. *)
Definition mutating (c : call) : bool :=
  match c with
  | CreateAuthSourceLdap _ | UpdateAuthSourceLdap _ _
  | DeleteAuthSourceLdap _ => true
  | _ => false
  end.

Definition is_create (c : call) : bool :=
  match c with CreateAuthSourceLdap _ => true | _ => false end.

Definition is_update (c : call) : bool :=
  match c with UpdateAuthSourceLdap _ _ => true | _ => false end.

(** [module.params] as [AnsibleModule] fills it from the [argument_spec]:
    every declared key is there, with [None] where the caller gave no value
    and the declaration no default, so that [module.params[key]] is
    [dict_get].  The two parameters of type list hold names; they are kept
    with their element type, [None] being Python's [None]. *)
Record AnsibleModule : Type := {
  params : dict;
  organizations : option (list string);
  locations : option (list string)
}.

(** What [ensure] returns: [True], [False], or the tuple [(True, ldap)]. *)
Inductive retval : Type :=
| RetBool (b : bool)
| RetTuple (b : bool) (ldap : object).

(** The descriptor handed to [module.exit_json]. *)
Record result : Type := {
  changed : retval;
  name : value
}.

(** The comparison keys of [ensure], and the keys copied to the request. *)
Definition cmp_keys : list string :=
  ["host"; "port"; "base_dn"; "account"; "attr_login"; "attr_firstname";
   "attr_lastname"; "attr_mail"; "attr_photo"; "onthefly_register";
   "usergroup_sync"; "ldap_filter"; "tls"; "groups_base"; "server_type"].

Definition keys : list string := (cmp_keys ++ ["account_password"])%list.

(** The loop [for key in keys: if module.params[key]: data[key] = ...]. *)
Fixpoint copy_params (params : dict) (ks : list string) (data : dict) : dict :=
  match ks with
  | [] => data
  | key :: rest =>
      copy_params params rest
        (if truthy (dict_get params key)
         then <[key := dict_get params key]> data
         else data)
  end.

(** The request before the names are resolved: [data = {'name': name}] and
    the loop over [keys]. *)
Definition base_data (module : AnsibleModule) : dict :=
  copy_params (params module) keys
    {["name" := dict_get (params module) "name"]}.

Arguments base_data : simpl never.
Arguments keys : simpl never.
Arguments cmp_keys : simpl never.

Section Client.

(** The state of the Foreman server. *)
Variable Remote : Type.

(** Modelled from the spec: [init_foreman_client], which [ensure] calls to
    obtain the client object [theforeman], is not defined in the two source
    files; the spec has the remote client handle provided from outside (the
    transport is an external collaborator), so the client is what the
    embedding is given.  A call answers with an object or raises
    [ForemanError] with a message ([inl]).  The searches and the fetch read
    the server; create, update and delete also change it. *)
Record Foreman : Type := {
  search_auth_source_ldap : Remote → dict → string + object;
  get_auth_source_ldap : Remote → value → string + object;
  search_organization : Remote → dict → string + object;
  search_location : Remote → dict → string + object;
  create_auth_source_ldap : Remote → dict → (string + object) * Remote;
  update_auth_source_ldap : Remote → value → dict → (string + object) * Remote;
  delete_auth_source_ldap : Remote → value → (string + object) * Remote
}.

Variable theforeman : Foreman.

(** The server and the calls made so far, oldest first. *)
Record world : Type := World {
  remote : Remote;
  calls : list call
}.

(** A computation of the module. *)
Definition M (A : Type) : Type := world → outcome A * world.

Definition ret {A} (a : A) : M A := λ w, (Return a, w).

Definition bind {A B} (c : M A) (f : A → M B) : M B :=
  λ w, match c w with
       | (Return a, w') => f a w'
       | (ForemanError e, w') => (ForemanError e, w')
       | (FailJson m, w') => (FailJson m, w')
       | (NameError n, w') => (NameError n, w')
       end.

Notation "x <- c1 ;; c2" := (bind c1 (λ x, c2))
  (at level 100, c1 at next level, right associativity).

(** [try: body  except ForemanError as e: handler(e.message)]. *)
Definition try_except {A} (body : M A) (handler : string → M A) : M A :=
  λ w, match body w with
       | (ForemanError e, w') => handler e w'
       | r => r
       end.

(** [module.fail_json(msg=...)] leaves the interpreter. *)
Definition fail_json {A} (msg : string) : M A := λ w, (FailJson msg, w).

(** Reading a name that nothing binds. *)
Definition unbound {A} (name : string) : M A := λ w, (NameError name, w).

(** A pure step that may end early. *)
Definition lift {A} (o : outcome A) : M A := λ w, (o, w).

Definition answer {A} (r : string + A) : outcome A :=
  match r with
  | inl e => ForemanError e
  | inr a => Return a
  end.

(** A call that reads the server. *)
Definition reading (c : call) (f : Remote → string + object) : M object :=
  λ w, (answer (f (remote w)), World (remote w) (calls w ++ [c])%list).

(** A call that changes the server. *)
Definition writing (c : call) (f : Remote → (string + object) * Remote)
  : M object :=
  λ w, (answer (f (remote w)).1, World (f (remote w)).2 (calls w ++ [c])%list).

(** *** foreman_utils.py *)

(** [{'name': n}], the argument of the searches by name. *)
Definition by_name (n : string) : dict := {["name" := VStr n]}.

Arguments by_name : simpl never.

(** The loop of [get_organization_ids], from [result] on.  The [except]
    clause formats its message from [locations[i]]; the function has no
    [locations] and the module no global of that name. *)
Fixpoint get_organization_ids_from (result : list value)
  (organizations : list string) : M (list value) :=
  match organizations with
  | [] => ret result
  | organization_i :: rest =>
      result <- try_except
        (organization <- reading (SearchOrganization (by_name organization_i))
           (λ r, search_organization theforeman r (by_name organization_i)) ;;
         if negb (truthy_obj organization)
         then fail_json ("Could not find Organization " ++ organization_i)
         else ret (result ++ [obj_get organization "id"])%list)
        (λ e, unbound "locations") ;;
      get_organization_ids_from result rest
  end.

Definition get_organization_ids (organizations : list string)
  : M (list value) :=
  get_organization_ids_from [] organizations.

Fixpoint get_location_ids_from (result : list value)
  (locations : list string) : M (list value) :=
  match locations with
  | [] => ret result
  | location_i :: rest =>
      result <- try_except
        (location <- reading (SearchLocation (by_name location_i))
           (λ r, search_location theforeman r (by_name location_i)) ;;
         if negb (truthy_obj location)
         then fail_json ("Could not find Location " ++ location_i)
         else ret (result ++ [obj_get location "id"])%list)
        (λ e, fail_json ("Search for Location '" ++ location_i
                         ++ "' throws an Error: " ++ e)) ;;
      get_location_ids_from result rest
  end.

Definition get_location_ids (locations : list string) : M (list value) :=
  get_location_ids_from [] locations.

(** *** foreman_ldap.py *)

(** The first [try] of [ensure]: the search by name and, when it finds
    something, the fetch by identifier. *)
Definition fetch_ldap (data : dict) : M object :=
  try_except
    (ldap <- reading (SearchAuthSourceLdap data)
       (λ r, search_auth_source_ldap theforeman r data) ;;
     if truthy_obj ldap
     then reading (GetAuthSourceLdap (obj_get ldap "id"))
            (λ r, get_auth_source_ldap theforeman r (obj_get ldap "id"))
     else ret ldap)
    (λ e, fail_json ("Could not get ldap: " ++ e)).

(** The request built by [ensure] between the fetch and the decision. *)
Definition build_data (module : AnsibleModule) : M dict :=
  let data := base_data module in
  data <- match organizations module with
          | Some names =>
              ids <- get_organization_ids names ;;
              ret (<["organization_ids" := VList ids]> data)
          | None => ret data
          end ;;
  match locations module with
  | Some names =>
      ids <- get_location_ids names ;;
      ret (<["location_ids" := VList ids]> data)
  | None => ret data
  end.

(** The decision of [ensure], from [if not ldap and state == 'present'] on.
    Each [try] block ends the function, by [return] or by [fail_json], so the
    statements that follow it are its [else].  The message of a failed delete
    is passed to [fail_json] by position, the others as [msg]. *)
Definition decide_action (state : value) (ldap : object) (data : dict)
  : M retval :=
  if negb (truthy_obj ldap) && py_eq state (VStr "present") then
    try_except
      (_ <- writing (CreateAuthSourceLdap data)
         (λ r, create_auth_source_ldap theforeman r data) ;;
       ret (RetBool true))
      (λ e, fail_json ("Could not create ldap: " ++ e))
  else if truthy_obj ldap then
    if py_eq state (VStr "absent") then
      try_except
        (_ <- writing (DeleteAuthSourceLdap (obj_get ldap "id"))
           (λ r, delete_auth_source_ldap theforeman r (obj_get ldap "id")) ;;
         ret (RetBool true))
        (λ e, fail_json ("Could not delete ldap: " ++ e))
    else
      equal <- lift (ldaps_equal data (default ∅ ldap) cmp_keys) ;;
      if negb equal then
        try_except
          (ldap <- writing (UpdateAuthSourceLdap (obj_get ldap "id") data)
             (λ r, update_auth_source_ldap theforeman r
                     (obj_get ldap "id") data) ;;
           ret (RetTuple true ldap))
          (λ e, fail_json ("Could not update hostgroup: " ++ e))
      else ret (RetBool false)
  else ret (RetBool false).

Definition ensure (module : AnsibleModule) : M retval :=
  let name := dict_get (params module) "name" in
  let state := dict_get (params module) "state" in
  ldap <- fetch_ldap {["name" := name]} ;;
  data <- build_data module ;;
  decide_action state ldap data.

(** [main], once the imports have succeeded: [ensure], then
    [module.exit_json(changed=changed, name=module.params['name'])]. *)
Definition main (module : AnsibleModule) : M result :=
  changed <- ensure module ;;
  ret {| changed := changed; name := dict_get (params module) "name" |}.

End Client.

Arguments World {Remote} remote calls.
Arguments remote {Remote} w.
Arguments calls {Remote} w.
Arguments search_auth_source_ldap {Remote} f r data.
Arguments get_auth_source_ldap {Remote} f r id.
Arguments search_organization {Remote} f r data.
Arguments search_location {Remote} f r data.
Arguments create_auth_source_ldap {Remote} f r data.
Arguments update_auth_source_ldap {Remote} f r id data.
Arguments delete_auth_source_ldap {Remote} f r id.
Arguments ret {Remote A} a w.
Arguments bind {Remote A B} c f w.
Arguments try_except {Remote A} body handler w.
Arguments fail_json {Remote A} msg w.
Arguments unbound {Remote A} name w.
Arguments lift {Remote A} o w.
Arguments reading {Remote} c f w.
Arguments writing {Remote} c f w.
Arguments get_organization_ids_from {Remote} theforeman result organizations w.
Arguments get_organization_ids {Remote} theforeman organizations w.
Arguments get_location_ids_from {Remote} theforeman result locations w.
Arguments get_location_ids {Remote} theforeman locations w.
Arguments fetch_ldap {Remote} theforeman data w.
Arguments build_data {Remote} theforeman module w.
Arguments decide_action {Remote} theforeman state ldap data w.
Arguments ensure {Remote} theforeman module w.
Arguments main {Remote} theforeman module w.

(** ** The declared parameters *)

(** The defaults of the [argument_spec] in [main]. *)
Definition argument_defaults : dict :=
  list_to_map
    [("state", VStr "present"); ("port", VInt 389); ("tls", VBool false);
     ("foreman_host", VStr "127.0.0.1"); ("foreman_port", VStr "443");
     ("foreman_ssl", VBool true)].

(** [AnsibleModule(argument_spec=...)] on the arguments of the task: a key
    the task leaves out takes its declared default, or [None]. *)
Definition ansible_module (args : dict)
  (organizations locations : option (list string)) : AnsibleModule :=
  {| params := args ∪ argument_defaults;
     organizations := organizations;
     locations := locations |}.

(** ** Reading the calls of a run *)



(** The comparator answering [True]. *)
Definition says_equal (o : outcome bool) : bool :=
  match o with
  | Return true => true
  | _ => false
  end.

(** An outcome that is the return of the boolean [b] alone. *)
Definition returns (b : bool) (o : outcome retval) : bool :=
  match o with
  | Return (RetBool b') => Bool.eqb b b'
  | _ => false
  end.

(** A [changed] value that is a Python [bool]. *)
Definition is_bool (v : retval) : bool :=
  match v with
  | RetBool _ => true
  | RetTuple _ _ => false
  end.

(** ** A server held in memory

    A stand-in for the Foreman server on which the code can be run: LDAP
    sources carry their ["id"], organizations and locations are tables from
    name to identifier, and an outage makes every search for an organization
    or a location raise. *)

Record server : Type := Server {
  sources : list dict;
  organization_table : list (string * Z);
  location_table : list (string * Z);
  next_id : Z;
  outage : option string
}.

Definition find_entity (table : list (string * Z)) (data : dict) : object :=
  match find (λ e : string * Z, py_eq (VStr e.1) (dict_get data "name")) table with
  | Some e => Some (<["id" := VInt e.2]> {["name" := VStr e.1]})
  | None => None
  end.

Definition search_entity (table : list (string * Z)) (s : server)
  (data : dict) : string + object :=
  match outage s with
  | Some e => inl e
  | None => inr (find_entity table data)
  end.

Definition in_memory : Foreman server := {|
  search_auth_source_ldap s data :=
    inr (find (λ d, py_eq (dict_get d "name") (dict_get data "name"))
           (sources s));
  get_auth_source_ldap s id :=
    inr (find (λ d, py_eq (dict_get d "id") id) (sources s));
  search_organization s data := search_entity (organization_table s) s data;
  search_location s data := search_entity (location_table s) s data;
  create_auth_source_ldap s data :=
    let record := <["id" := VInt (next_id s)]> data in
    (inr (Some record),
     Server (sources s ++ [record])%list (organization_table s)
       (location_table s) (next_id s + 1) (outage s));
  update_auth_source_ldap s id data :=
    (inr (find (λ d, py_eq (dict_get d "id") id)
            (map (λ d, if py_eq (dict_get d "id") id then data ∪ d else d)
               (sources s))),
     Server (map (λ d, if py_eq (dict_get d "id") id then data ∪ d else d)
               (sources s))
       (organization_table s) (location_table s) (next_id s) (outage s));
  delete_auth_source_ldap s id :=
    (inr None,
     Server (filter (λ d, py_eq (dict_get d "id") id = false) (sources s))
       (organization_table s) (location_table s) (next_id s) (outage s))
|}.

(** An empty server that knows one organization and one location. *)
Definition empty_server : server :=
  Server [] [("Default Organization", 1)] [("Default Location", 2)] 1 None.

(** The task of the module's EXAMPLES: only [name] and [host] are given. *)
Definition test_ldap : AnsibleModule :=
  ansible_module
    (<["host" := VStr "127.0.0.1"]> {["name" := VStr "Test LDAP"]})
    None None.

(** ** The two resolvers as one loop

    [get_organization_ids] and [get_location_ids] are the same loop up to the
    search they call, the kind they name and what their [except] clause does.
    [resolve_from] is that loop; the lemmas on it serve both. *)

Section Resolver.

Context {Remote : Type}.
Variable mk : dict → call.
Variable search : Remote → dict → string + object.
Variable kind : string.
Variable on_error : string → string → outcome (list value).

Fixpoint resolve_from (result : list value) (names : list string)
  : M Remote (list value) :=
  match names with
  | [] => ret result
  | n :: rest =>
      bind
        (try_except
           (bind (reading (mk (by_name n)) (λ r, search r (by_name n)))
              (λ entity,
                 if negb (truthy_obj entity)
                 then fail_json ("Could not find " ++ kind ++ " " ++ n)
                 else ret (result ++ [obj_get entity "id"])%list))
           (λ e, lift (on_error n e)))
        (λ result, resolve_from result rest)
  end.

(** The name resolves on the server [r]: the search answers with an object
    that is true. *)
Definition resolves (r : Remote) (n : string) : bool :=
  match search r (by_name n) with
  | inr entity => truthy_obj entity
  | inl _ => false
  end.

(** The search finds nothing for the name. *)
Definition missing (r : Remote) (n : string) : bool :=
  match search r (by_name n) with
  | inr entity => negb (truthy_obj entity)
  | inl _ => false
  end.

(** The identifier the search gives for the name. *)
Definition id_of (r : Remote) (n : string) : value :=
  match search r (by_name n) with
  | inr entity => obj_get entity "id"
  | inl _ => VNone
  end.

(** The searches made for a list of names, in order. *)
Definition searches (names : list string) : list call :=
  map (λ n, mk (by_name n)) names.

End Resolver.

(** ** The request, as a function of the resolved identifiers *)

(** [data[key] = ids] when the list parameter was given. *)
Definition set_ids (key : string) (ids : option (list value)) (data : dict)
  : dict :=
  match ids with
  | Some ids => <[key := VList ids]> data
  | None => data
  end.

(** The identifiers of the organizations, resp. locations, of a task, as the
    searches on the server [r] give them. *)
Definition organization_ids {Remote} (theforeman : Foreman Remote)
  (module : AnsibleModule) (r : Remote) : option (list value) :=
  map (id_of (search_organization theforeman) r) <$> organizations module.

Definition location_ids {Remote} (theforeman : Foreman Remote)
  (module : AnsibleModule) (r : Remote) : option (list value) :=
  map (id_of (search_location theforeman) r) <$> locations module.

(** The request of a task whose names all resolve on the server [r]. *)
Definition request {Remote} (theforeman : Foreman Remote)
  (module : AnsibleModule) (r : Remote) : dict :=
  set_ids "location_ids" (location_ids theforeman module r)
    (set_ids "organization_ids" (organization_ids theforeman module r)
       (base_data module)).

(** The searches made for the names of a task when they all resolve. *)
Definition resolution_calls (module : AnsibleModule) : list call :=
  (from_option (searches SearchOrganization) [] (organizations module)
   ++ from_option (searches SearchLocation) [] (locations module))%list.

(** Every name of the task resolves on the server. *)
Definition all_resolve {Remote} (theforeman : Foreman Remote)
  (module : AnsibleModule) (r : Remote) : bool :=
  from_option (forallb (resolves (search_organization theforeman) r)) true
    (organizations module)
  && from_option (forallb (resolves (search_location theforeman) r)) true
       (locations module).


(** A run segment that only reads: same server, and no mutating call among
    the calls it adds. *)
Definition only_reads {Remote} (w w' : world Remote) : Prop :=
  remote w' = remote w
  ∧ ∃ cs, calls w' = (calls w ++ cs)%list ∧ List.filter mutating cs = [].

(** ** Servers and tasks for the scenarios *)

(** A server that holds the source of [test_ldap] with another host. *)
Definition stale_server : server :=
  Server
    [<["id" := VInt 7]> (<["host" := VStr "10.0.0.1"]>
       {["name" := VStr "Test LDAP"]})]
    [("Default Organization", 1)] [("Default Location", 2)] 8 None.

(** A server whose searches for organizations and locations raise. *)
Definition failing_server : server :=
  Server [] [("Default Organization", 1)] [("Default Location", 2)] 1
    (Some "503 Service Unavailable").

(** [test_ldap] assigned to one organization, and to one location. *)
Definition test_ldap_in (organizations locations : option (list string))
  : AnsibleModule :=
  ansible_module
    (<["host" := VStr "127.0.0.1"]> {["name" := VStr "Test LDAP"]})
    organizations locations.


(** ** More of the two files *)

Definition is_delete (c : call) : bool :=
  match c with DeleteAuthSourceLdap _ => true | _ => false end.

(** *** get_user_ids *)

(** [{'login': u}], the argument of the search for a user. *)
Definition by_login (u : string) : dict := {["login" := VStr u]}.

Arguments by_login : simpl never.

(** [try: body  except ForemanError as e: handler(e.message)] around a step
    that makes no call of its own. *)
Definition otry {A} (body : outcome A) (handler : string → outcome A)
  : outcome A :=
  match body with
  | ForemanError e => handler e
  | r => r
  end.

(** The loop of [get_user_ids], from [result] on.  [search_user] is the
    client's search against the server as it stands; [ensure] does not call
    the function, and the list of calls has no entry for it. *)
Fixpoint get_user_ids_from (search_user : dict → string + object)
  (result : list value) (users : list string) : outcome (list value) :=
  match users with
  | [] => Return result
  | user_i :: rest =>
      obind
        (otry
           (obind (answer (search_user (by_login user_i)))
              (λ user,
                 if negb (truthy_obj user)
                 then FailJson ("Could not find user " ++ user_i)
                 else Return (result ++ [obj_get user "id"])%list))
           (λ e, FailJson ("Could not get user: " ++ e)))
        (λ result, get_user_ids_from search_user result rest)
  end.

Definition get_user_ids (search_user : dict → string + object)
  (users : list string) : outcome (list value) :=
  get_user_ids_from search_user [] users.

(** The user of a login, as the search gives it. *)
Definition user_found (search_user : dict → string + object) (u : string)
  : bool :=
  match search_user (by_login u) with
  | inr user => truthy_obj user
  | inl _ => false
  end.

Definition user_id (search_user : dict → string + object) (u : string)
  : value :=
  match search_user (by_login u) with
  | inr user => obj_get user "id"
  | inl _ => VNone
  end.

(** *** The imports and the checks of main *)

(** What the interpreter finds when the module starts: for each of the two
    imports, [None] when the package is there, and the message of the
    [ImportError] when it is not.  [foreman_import] is [foreman.foreman] of
    python-foreman, [foreman_utils_import] is the lookup of
    [ansible.module_utils.foreman_utils] itself. *)
Record installation : Type := {
  foreman_import : option string;
  foreman_utils_import : option string
}.

(** The three names the top level of [foreman_ldap.py] binds;
    [import_error_msg] is bound only in the [except] clause. *)
Record globals : Type := {
  foremanclient_found : bool;
  has_import_error : bool;
  import_error_msg : option string
}.

(** The top level of [foreman_utils.py]: when [foreman.foreman] cannot be
    imported, the [except ImportError] clause calls [module.fail_json], and
    the file has no [module]. *)
Definition import_foreman_utils (inst : installation) : outcome unit :=
  match foreman_import inst with
  | None => Return tt
  | Some _ => NameError "module"
  end.

(** The two [try] blocks at the top of [foreman_ldap.py].  The second
    catches [ImportError] only. *)
Definition import_foreman_ldap (inst : installation) : outcome globals :=
  let found := bool_decide (foreman_import inst = None) in
  match foreman_utils_import inst with
  | Some msg =>
      Return {| foremanclient_found := found;
                has_import_error := true;
                import_error_msg := Some msg |}
  | None =>
      obind (import_foreman_utils inst) (λ _,
        Return {| foremanclient_found := found;
                  has_import_error := false;
                  import_error_msg := None |})
  end.

(** [main] with its two checks before [ensure]. *)
Definition main_checked {Remote} (theforeman : Foreman Remote) (g : globals)
  (module : AnsibleModule) : M Remote result :=
  if negb (foremanclient_found g) then
    fail_json
      "python-foreman module is required. See https://github.com/Nosmoht/python-foreman."
  else if has_import_error g then
    match import_error_msg g with
    | Some msg => fail_json msg
    | None => unbound "import_error_msg"
    end
  else main theforeman module.

(** The file run as a script: the imports, then [main]. *)
Definition run_module {Remote} (theforeman : Foreman Remote)
  (inst : installation) (module : AnsibleModule) : M Remote result :=
  bind (lift (import_foreman_ldap inst))
    (λ g, main_checked theforeman g module).

(** *** More servers for the scenarios *)

(** The server in memory behind a client that refuses every change with the
    message [e]. *)
Definition read_only (e : string) : Foreman server := {|
  search_auth_source_ldap := search_auth_source_ldap in_memory;
  get_auth_source_ldap := get_auth_source_ldap in_memory;
  search_organization := search_organization in_memory;
  search_location := search_location in_memory;
  create_auth_source_ldap s data := (inl e, s);
  update_auth_source_ldap s id data := (inl e, s);
  delete_auth_source_ldap s id := (inl e, s)
|}.

(** A client whose search for the LDAP source raises with the message [e]. *)
Definition unreachable (e : string) : Foreman server := {|
  search_auth_source_ldap s data := inl e;
  get_auth_source_ldap := get_auth_source_ldap in_memory;
  search_organization := search_organization in_memory;
  search_location := search_location in_memory;
  create_auth_source_ldap := create_auth_source_ldap in_memory;
  update_auth_source_ldap := update_auth_source_ldap in_memory;
  delete_auth_source_ldap := delete_auth_source_ldap in_memory
|}.

(** A server that holds the source of [test_ldap] as [test_ldap] gives it,
    with LDAPS on and another port. *)
Definition ldaps_server : server :=
  Server
    [<["id" := VInt 7]> (<["tls" := VBool true]> (<["port" := VInt 636]>
       (<["host" := VStr "127.0.0.1"]> {["name" := VStr "Test LDAP"]})))]
    [("Default Organization", 1)] [("Default Location", 2)] 8 None.

(** The server after [test_ldap] has run on it once, as the client in memory
    leaves it. *)
Definition synced_server : server :=
  Server
    [<["id" := VInt 1]> (<["port" := VInt 389]>
       (<["host" := VStr "127.0.0.1"]> {["name" := VStr "Test LDAP"]}))]
    [("Default Organization", 1)] [("Default Location", 2)] 2 None.

(** [test_ldap] with [state: absent]. *)
Definition test_ldap_absent : AnsibleModule :=
  ansible_module
    (<["state" := VStr "absent"]>
       (<["host" := VStr "127.0.0.1"]> {["name" := VStr "Test LDAP"]}))
    None None.

(** A user table for [get_user_ids]. *)
Definition search_admin (data : dict) : string + object :=
  if py_eq (dict_get data "login") (VStr "admin")
  then inr (Some (<["id" := VInt 4]> {["login" := VStr "admin"]}))
  else if py_eq (dict_get data "login") (VStr "down")
       then inl "500 Internal Server Error"
       else inr None.

(** A server that holds the source of [test_ldap] as [test_ldap] gives it,
    assigned to the organization of identifier [1]. *)
Definition assigned_server : server :=
  Server
    [<["organization_ids" := VList [VInt 1]]> (<["id" := VInt 1]>
       (<["port" := VInt 389]> (<["host" := VStr "127.0.0.1"]>
          {["name" := VStr "Test LDAP"]})))]
    [("Default Organization", 1)] [("Default Location", 2)] 2 None.

(** * Properties *)

(** ** Sequencing *)

Section Sequencing.

Context {Remote : Type} {A B : Type}.
Variables (c : M Remote A) (f : A → M Remote B) (w w' : world Remote).

Lemma bind_return (a : A) (o : outcome B * world Remote) :
  c w = (Return a, w') → f a w' = o → bind c f w = o.
Proof. intros H <-. unfold bind. by rewrite H. Qed.

Lemma bind_fail_json (msg : string) :
  c w = (FailJson msg, w') → bind c f w = (FailJson msg, w').
Proof. intros H. unfold bind. by rewrite H. Qed.

Lemma bind_name_error (n : string) :
  c w = (NameError n, w') → bind c f w = (NameError n, w').
Proof. intros H. unfold bind. by rewrite H. Qed.

End Sequencing.

(** ** The comparator never answers [True] *)

Lemma associations_equal_unbound (data ldap : dict) :
  associations_equal data ldap = NameError "organizations_equal".
Proof. reflexivity. Qed.

(** The loop answers [False] at the first differing key; past the loop the
    comparator reads an unbound name. *)
Lemma ldaps_equal_loop (data ldap : dict) (ks : list string) :
  ldaps_equal data ldap ks
  = if existsb (key_differs data ldap) ks
    then Return false
    else NameError "organizations_equal".
Proof.
  induction ks as [|key rest IH]; simpl.
  - apply associations_equal_unbound.
  - destruct (key_differs data ldap key); [reflexivity | exact IH].
Qed.

(** C10: the comparator never returns [True].  Whatever the two mappings and
    the comparison keys, it returns [False] when some comparison key that is
    in the desired mapping differs, and otherwise goes on to call
    [organizations_equal], a name bound nowhere in the source, and ends in
    [NameError] before [return True]. *)
Theorem ldaps_equal_never_true (data ldap : dict) (ks : list string) :
  ldaps_equal data ldap ks
  = (if existsb (key_differs data ldap) ks
     then Return false
     else NameError "organizations_equal")
  ∧ says_equal (ldaps_equal data ldap ks) = false.
Proof.
  rewrite ldaps_equal_loop.
  split; [reflexivity |].
  destruct (existsb (key_differs data ldap) ks); reflexivity.
Qed.

(** C2, where it fails, at the spec's own example: a desired mapping that leaves [host]
    unset, compared on [host] with a record that has one.  No key differs,
    and the comparator ends in [NameError] instead of returning [True]. *)
Theorem ldaps_equal_omitted_field :
  ldaps_equal {["name" := VStr "x"]}
    (<["host" := VStr "h"]> {["name" := VStr "x"]}) ["host"]
  = NameError "organizations_equal".
Proof. vm_compute. reflexivity. Qed.

(** ** The resolvers *)

Section ResolverFacts.

Context {Remote : Type}.
Variable mk : dict → call.
Variable search : Remote → dict → string + object.
Variable kind : string.
Variable on_error : string → string → outcome (list value).

Local Abbreviation resolve_from := (resolve_from mk search kind on_error).

(** Every name resolves: the identifiers come back in the order of the names,
    after one search per name. *)
Lemma resolve_from_all (names : list string) :
  ∀ (result : list value) (w : world Remote),
    forallb (resolves search (remote w)) names = true →
    resolve_from result names w
    = (Return (result ++ map (id_of search (remote w)) names)%list,
       World (remote w) (calls w ++ searches mk names)%list).
Proof.
  induction names as [|n rest IH]; intros result [r cs] Hall; simpl in *.
  - unfold ret. by rewrite !app_nil_r.
  - apply andb_prop in Hall as [Hn Hrest].
    unfold resolves in Hn. unfold id_of at 1.
    unfold bind at 1, try_except, bind, reading; simpl.
    destruct (search r (by_name n)) as [e|entity]; [discriminate |]; simpl.
    rewrite Hn; simpl.
    rewrite (IH _ (World r _)); [| exact Hrest]; simpl.
    unfold searches; simpl. by rewrite <- !app_assoc.
Qed.

(** The loop stops at the first name the search does not find. *)
Lemma resolve_from_missing (pre : list string) (n : string)
  (post : list string) (result : list value) (w : world Remote) :
  forallb (resolves search (remote w)) pre = true →
  missing search (remote w) n = true →
  resolve_from result (pre ++ n :: post) w
  = (FailJson ("Could not find " ++ kind ++ " " ++ n),
     World (remote w) (calls w ++ searches mk (pre ++ [n]))%list).
Proof.
  revert result w.
  induction pre as [|p pre IH]; intros result [r cs] Hpre Hn; simpl in *.
  - unfold missing in Hn.
    unfold bind at 1, try_except, bind, reading; simpl.
    destruct (search r (by_name n)) as [e|entity]; [discriminate |]; simpl.
    by rewrite Hn.
  - apply andb_prop in Hpre as [Hp Hpre].
    unfold resolves in Hp.
    unfold bind at 1, try_except, bind at 1, reading; simpl.
    destruct (search r (by_name p)) as [e|entity]; [discriminate |]; simpl.
    rewrite Hp; simpl.
    rewrite (IH _ (World r _)); [| exact Hpre | exact Hn]; simpl.
    unfold searches; simpl. by rewrite <- !app_assoc.
Qed.

(** The loop ends with what the [except] clause does at the first search
    that raises, when that is not a return. *)
Lemma resolve_from_error (pre : list string) (n : string)
  (post : list string) (e : string) (result : list value)
  (w : world Remote) :
  forallb (resolves search (remote w)) pre = true →
  search (remote w) (by_name n) = inl e →
  (∀ a, on_error n e ≠ Return a) →
  resolve_from result (pre ++ n :: post) w
  = (on_error n e,
     World (remote w) (calls w ++ searches mk (pre ++ [n]))%list).
Proof.
  intros Hpre Hn Herr. revert result w Hpre Hn.
  induction pre as [|p pre IH]; intros result [r cs] Hpre Hn; simpl in *.
  - unfold bind at 1, try_except, bind, reading, lift; simpl.
    rewrite Hn; simpl.
    destruct (on_error n e) as [a| | |]; [by destruct (Herr a) | done..].
  - apply andb_prop in Hpre as [Hp Hpre].
    unfold resolves in Hp.
    unfold bind at 1, try_except, bind at 1, reading; simpl.
    destruct (search r (by_name p)) as [e'|entity]; [discriminate |]; simpl.
    rewrite Hp; simpl.
    rewrite (IH _ (World r _)); [| exact Hpre | exact Hn]; simpl.
    unfold searches; simpl. by rewrite <- !app_assoc.
Qed.

(** The loop only reads: the server is as before, and the calls it adds are
    searches. *)
Lemma resolve_from_reads (names : list string) :
  ∀ (result : list value) (w : world Remote),
    ∃ done : list string,
      (resolve_from result names w).2
      = World (remote w) (calls w ++ searches mk done)%list.
Proof.
  induction names as [|n rest IH]; intros result [r cs]; simpl.
  - exists []. unfold ret; simpl. by rewrite app_nil_r.
  - unfold bind at 1, try_except, bind, reading, lift, fail_json, ret; simpl.
    destruct (search r (by_name n)) as [e|entity]; simpl.
    + destruct (on_error n e) as [a| | |]; [| by exists [n]..].
      destruct (IH a (World r (cs ++ [mk (by_name n)])%list)) as [done Hdone].
      exists (n :: done). rewrite Hdone; simpl.
      unfold searches; simpl. by rewrite <- app_assoc.
    + destruct (truthy_obj entity); simpl.
      * destruct (IH (result ++ [obj_get entity "id"])%list
                    (World r (cs ++ [mk (by_name n)])%list)) as [done Hdone].
        exists (n :: done). rewrite Hdone; simpl.
        unfold searches; simpl. by rewrite <- app_assoc.
      * by exists [n].
Qed.

End ResolverFacts.

(** The two functions of [foreman_utils.py] are instances of the loop. *)
Lemma get_organization_ids_from_resolve {Remote} (theforeman : Foreman Remote)
  (names : list string) :
  ∀ (result : list value) (w : world Remote),
    get_organization_ids_from theforeman result names w
    = resolve_from SearchOrganization (search_organization theforeman)
        "Organization" (λ _ _, NameError "locations") result names w.
Proof.
  induction names as [|n rest IH]; intros result w; [reflexivity |].
  simpl. unfold bind at 1 3.
  match goal with |- match ?a with _ => _ end = match ?b with _ => _ end =>
    replace a with b by reflexivity; destruct b as [[x| | |] w'] end;
    [apply IH | reflexivity..].
Qed.

Lemma get_location_ids_from_resolve {Remote} (theforeman : Foreman Remote)
  (names : list string) :
  ∀ (result : list value) (w : world Remote),
    get_location_ids_from theforeman result names w
    = resolve_from SearchLocation (search_location theforeman)
        "Location"
        (λ n e, FailJson ("Search for Location '" ++ n
                          ++ "' throws an Error: " ++ e))
        result names w.
Proof.
  induction names as [|n rest IH]; intros result w; [reflexivity |].
  simpl. unfold bind at 1 3.
  match goal with |- match ?a with _ => _ end = match ?b with _ => _ end =>
    replace a with b by reflexivity; destruct b as [[x| | |] w'] end;
    [apply IH | reflexivity..].
Qed.

(** ** Reading segments *)

Lemma only_reads_refl {Remote} (w : world Remote) : only_reads w w.
Proof. split; [reflexivity |]. exists []. by rewrite app_nil_r. Qed.

Lemma only_reads_trans {Remote} (w1 w2 w3 : world Remote) :
  only_reads w1 w2 → only_reads w2 w3 → only_reads w1 w3.
Proof.
  intros [Hr1 (cs1 & Hc1 & Hm1)] [Hr2 (cs2 & Hc2 & Hm2)].
  split; [congruence |].
  exists (cs1 ++ cs2)%list. split.
  - by rewrite Hc2, Hc1, app_assoc.
  - by rewrite List.filter_app, Hm1, Hm2.
Qed.

Lemma searches_read (mk : dict → call) (names : list string) :
  (∀ d, mutating (mk d) = false) →
  List.filter mutating (searches mk names) = [].
Proof.
  intros Hmk. induction names as [|n rest IH]; [reflexivity |].
  simpl. by rewrite Hmk.
Qed.

Lemma get_organization_ids_reads {Remote} (theforeman : Foreman Remote)
  (names : list string) (w : world Remote) :
  only_reads w (get_organization_ids theforeman names w).2.
Proof.
  unfold get_organization_ids.
  rewrite get_organization_ids_from_resolve.
  destruct (resolve_from_reads SearchOrganization
              (search_organization theforeman) "Organization"
              (λ _ _, NameError "locations") names [] w) as [done ->].
  split; [reflexivity |]. exists (searches SearchOrganization done).
  split; [reflexivity |]. by apply searches_read.
Qed.

Lemma get_location_ids_reads {Remote} (theforeman : Foreman Remote)
  (names : list string) (w : world Remote) :
  only_reads w (get_location_ids theforeman names w).2.
Proof.
  unfold get_location_ids.
  rewrite get_location_ids_from_resolve.
  match goal with |- context [resolve_from ?mk ?s ?k ?h ?res names w] =>
    destruct (resolve_from_reads mk s k h names res w) as [done ->] end.
  split; [reflexivity |]. exists (searches SearchLocation done).
  split; [reflexivity |]. by apply searches_read.
Qed.

Lemma fetch_ldap_reads {Remote} (theforeman : Foreman Remote) (data : dict)
  (w : world Remote) :
  only_reads w (fetch_ldap theforeman data w).2.
Proof.
  destruct w as [r cs].
  unfold fetch_ldap, try_except, bind, reading, fail_json, ret; simpl.
  destruct (search_auth_source_ldap theforeman r data) as [e|found]; simpl.
  - split; [reflexivity |]. by exists [SearchAuthSourceLdap data].
  - destruct (truthy_obj found); simpl.
    + destruct (get_auth_source_ldap theforeman r (obj_get found "id"));
        simpl; (split; [reflexivity |]);
        exists [SearchAuthSourceLdap data;
                GetAuthSourceLdap (obj_get found "id")];
        by rewrite <- app_assoc.
    + split; [reflexivity |]. by exists [SearchAuthSourceLdap data].
Qed.

(** ** The request *)

Section ResolverReturn.

Context {Remote : Type}.
Variable mk : dict → call.
Variable search : Remote → dict → string + object.
Variable kind : string.
Variable on_error : string → string → outcome (list value).
Hypothesis on_error_ends : ∀ n e a, on_error n e ≠ Return a.

(** The loop returns only when every name resolves. *)
Lemma resolve_from_return (names : list string) :
  ∀ (result ids : list value) (w w' : world Remote),
    resolve_from mk search kind on_error result names w = (Return ids, w') →
    forallb (resolves search (remote w)) names = true.
Proof.
  induction names as [|n rest IH]; intros result ids [r cs] w' Hrun;
    [reflexivity |].
  simpl in *. unfold resolves at 1; simpl.
  unfold bind at 1, try_except, bind, reading, lift, fail_json, ret in Hrun;
    simpl in Hrun.
  destruct (search r (by_name n)) as [e|entity]; simpl in Hrun.
  - pose proof (on_error_ends n e) as Hne.
    destruct (on_error n e) as [a| | |]; [by destruct (Hne a) | done..].
  - destruct (truthy_obj entity); simpl in *; [| done].
    exact (IH _ _ (World r _) _ Hrun).
Qed.

End ResolverReturn.

Lemma get_organization_ids_return {Remote} (theforeman : Foreman Remote)
  (names : list string) (ids : list value) (w w' : world Remote) :
  get_organization_ids theforeman names w = (Return ids, w') →
  forallb (resolves (search_organization theforeman) (remote w)) names = true.
Proof.
  unfold get_organization_ids. rewrite get_organization_ids_from_resolve.
  apply resolve_from_return. done.
Qed.

Lemma get_location_ids_return {Remote} (theforeman : Foreman Remote)
  (names : list string) (ids : list value) (w w' : world Remote) :
  get_location_ids theforeman names w = (Return ids, w') →
  forallb (resolves (search_location theforeman) (remote w)) names = true.
Proof.
  unfold get_location_ids. rewrite get_location_ids_from_resolve.
  apply resolve_from_return. done.
Qed.

Section Request.

Context {Remote : Type}.
Variable theforeman : Foreman Remote.

Lemma build_data_all (module : AnsibleModule) (w : world Remote) :
  all_resolve theforeman module (remote w) = true →
  build_data theforeman module w
  = (Return (request theforeman module (remote w)),
     World (remote w) (calls w ++ resolution_calls module)%list).
Proof.
  intros Hall. apply andb_prop in Hall as [Horg Hloc].
  unfold build_data, request, organization_ids, location_ids,
    resolution_calls.
  destruct w as [r cs].
  destruct (organizations module) as [orgs|], (locations module) as [locs|];
    simpl in *; unfold bind, ret, get_organization_ids, get_location_ids.
  - rewrite get_organization_ids_from_resolve, resolve_from_all by done.
    simpl.
    rewrite get_location_ids_from_resolve, resolve_from_all by done.
    simpl. by rewrite app_assoc.
  - rewrite get_organization_ids_from_resolve, resolve_from_all by done.
    simpl. by rewrite app_nil_r.
  - rewrite get_location_ids_from_resolve, resolve_from_all by done.
    done.
  - by rewrite app_nil_r.
Qed.

Lemma build_data_return (module : AnsibleModule) (w w' : world Remote)
  (data : dict) :
  build_data theforeman module w = (Return data, w') →
  all_resolve theforeman module (remote w) = true.
Proof.
  unfold build_data, all_resolve.
  destruct (organizations module) as [orgs|], (locations module) as [locs|];
    simpl; unfold bind, ret; intros Hrun; try reflexivity.
  - pose proof (get_organization_ids_reads theforeman orgs w) as [Hr _].
    destruct (get_organization_ids theforeman orgs w)
      as [[ids| | |] w1] eqn:Horg; try discriminate.
    apply get_organization_ids_return in Horg. rewrite Horg; simpl.
    simpl in Hr. rewrite <- Hr.
    destruct (get_location_ids theforeman locs w1)
      as [[ids'| | |] w2] eqn:Hloc; try discriminate.
    by apply get_location_ids_return in Hloc.
  - destruct (get_organization_ids theforeman orgs w)
      as [[ids| | |] w1] eqn:Horg; try discriminate.
    apply get_organization_ids_return in Horg. by rewrite Horg.
  - destruct (get_location_ids theforeman locs w)
      as [[ids'| | |] w2] eqn:Hloc; try discriminate.
    by apply get_location_ids_return in Hloc.
Qed.

(** When [build_data] returns, it returns [request] after the searches of
    [resolution_calls]. *)
Lemma build_data_inv (module : AnsibleModule) (w w' : world Remote)
  (data : dict) :
  build_data theforeman module w = (Return data, w') →
  data = request theforeman module (remote w)
  ∧ w' = World (remote w) (calls w ++ resolution_calls module)%list.
Proof.
  intros Hrun. pose proof (build_data_return _ _ _ _ Hrun) as Hall.
  rewrite (build_data_all _ _ Hall) in Hrun. by inversion Hrun.
Qed.

Lemma build_data_reads (module : AnsibleModule) (w : world Remote) :
  only_reads w (build_data theforeman module w).2.
Proof.
  unfold build_data.
  destruct (organizations module) as [orgs|], (locations module) as [locs|];
    unfold bind, ret.
  - pose proof (get_organization_ids_reads theforeman orgs w) as Horg.
    destruct (get_organization_ids theforeman orgs w) as [[ids| | |] w1];
      simpl in *; try exact Horg.
    pose proof (get_location_ids_reads theforeman locs w1) as Hloc.
    destruct (get_location_ids theforeman locs w1) as [[ids'| | |] w2];
      simpl in *; by eapply only_reads_trans.
  - pose proof (get_organization_ids_reads theforeman orgs w) as Horg.
    by destruct (get_organization_ids theforeman orgs w) as [[ids| | |] w1].
  - pose proof (get_location_ids_reads theforeman locs w) as Hloc.
    by destruct (get_location_ids theforeman locs w) as [[ids'| | |] w2].
  - apply only_reads_refl.
Qed.

End Request.

(** ** The keys of the request *)

(** The loop over the keys writes [key] exactly when the parameter is true,
    and then with the parameter's value. *)
Lemma copy_params_lookup (p : dict) (ks : list string) :
  ∀ (d : dict) (k : string),
    copy_params p ks d !! k
    = if bool_decide (k ∈ ks) && truthy (dict_get p k)
      then Some (dict_get p k)
      else d !! k.
Proof.
  induction ks as [|key rest IH]; intros d k; cbn [copy_params].
  - rewrite bool_decide_eq_false_2; [done | apply not_elem_of_nil].
  - rewrite IH. destruct (decide (k = key)) as [->|Hne].
    + rewrite (bool_decide_eq_true_2 (key ∈ key :: rest));
        [| apply elem_of_cons; by left].
      simpl. destruct (truthy (dict_get p key)) eqn:Ht.
      * destruct (bool_decide (key ∈ rest)); simpl;
          [done | apply lookup_insert_eq].
      * by rewrite andb_false_r.
    + rewrite (bool_decide_ext (k ∈ key :: rest) (k ∈ rest)).
      2:{ rewrite elem_of_cons. split; [by intros [?|?] | by right]. }
      destruct (bool_decide (k ∈ rest) && truthy (dict_get p k)); [done |].
      destruct (truthy (dict_get p key)); [| done].
      by rewrite lookup_insert_ne.
Qed.

Lemma base_data_lookup (module : AnsibleModule) (k : string) :
  base_data module !! k
  = if bool_decide (k ∈ keys) && truthy (dict_get (params module) k)
    then Some (dict_get (params module) k)
    else if bool_decide (k = "name")
         then Some (dict_get (params module) "name")
         else None.
Proof.
  unfold base_data. rewrite copy_params_lookup.
  destruct (bool_decide (k ∈ keys) && truthy (dict_get (params module) k));
    [done |].
  case_bool_decide as Hk.
  - subst k. apply lookup_singleton_eq.
  - by apply lookup_singleton_ne.
Qed.

Lemma request_lookup {Remote} (theforeman : Foreman Remote)
  (module : AnsibleModule) (r : Remote) (k : string) :
  request theforeman module r !! k
  = if bool_decide (k = "location_ids")
    then VList <$> location_ids theforeman module r
    else if bool_decide (k = "organization_ids")
         then VList <$> organization_ids theforeman module r
         else base_data module !! k.
Proof.
  unfold request.
  assert (Hbase : ∀ k', k' = "location_ids" ∨ k' = "organization_ids" →
                        base_data module !! k' = None).
  { intros k' [->| ->]; rewrite base_data_lookup;
      (rewrite (bool_decide_eq_false_2 (_ ∈ keys)); [| compute_done]);
      by rewrite (bool_decide_eq_false_2 (_ = "name")). }
  destruct (location_ids theforeman module r) as [locs|],
    (organization_ids theforeman module r) as [orgs|]; simpl;
    repeat case_bool_decide; subst; simplify_map_eq; auto.
Qed.

(** ** Comparing with a string *)

Lemma py_eq_str (v : value) (s : string) :
  py_eq v (VStr s) = true → v = VStr s.
Proof.
  destruct v; simpl; try discriminate.
  intros H. apply String.eqb_eq in H. by subst.
Qed.

(** ** The decision *)

Section Decision.

Context {Remote : Type}.
Variable theforeman : Foreman Remote.

(** [ensure] is the fetch, then the request, then the decision. *)
Lemma ensure_steps (module : AnsibleModule) (w w1 w2 : world Remote)
  (ldap : object) (data : dict) :
  fetch_ldap theforeman {["name" := dict_get (params module) "name"]} w
  = (Return ldap, w1) →
  build_data theforeman module w1 = (Return data, w2) →
  ensure theforeman module w
  = decide_action theforeman (dict_get (params module) "state") ldap data w2.
Proof.
  intros Hfetch Hbuild. unfold ensure, bind. by rewrite Hfetch, Hbuild.
Qed.

(** No record and [present]: one create; [True] unless the create raises. *)
Lemma decide_action_create (ldap : object) (data : dict)
  (w : world Remote) :
  truthy_obj ldap = false →
  decide_action theforeman (VStr "present") ldap data w
  = (match (create_auth_source_ldap theforeman (remote w) data).1 with
     | inr _ => Return (RetBool true)
     | inl e => FailJson ("Could not create ldap: " ++ e)
     end,
     World (create_auth_source_ldap theforeman (remote w) data).2
       (calls w ++ [CreateAuthSourceLdap data])%list).
Proof.
  intros Hldap. unfold decide_action. rewrite Hldap.
  change (py_eq (VStr "present") (VStr "present")) with true.
  cbn [negb andb].
  unfold try_except, bind, writing, fail_json, ret.
  by destruct (create_auth_source_ldap theforeman (remote w) data).1.
Qed.

(** No record and a state other than [present]: nothing to do. *)
Lemma decide_action_nothing (state : value) (ldap : object) (data : dict)
  (w : world Remote) :
  truthy_obj ldap = false →
  py_eq state (VStr "present") = false →
  decide_action theforeman state ldap data w = (Return (RetBool false), w).
Proof.
  intros Hldap Hstate. unfold decide_action. by rewrite Hldap, Hstate.
Qed.

(** A record and [absent]: one delete; [True] unless the delete raises. *)
Lemma decide_action_delete (ldap : object) (data : dict)
  (w : world Remote) :
  truthy_obj ldap = true →
  decide_action theforeman (VStr "absent") ldap data w
  = (match (delete_auth_source_ldap theforeman (remote w)
              (obj_get ldap "id")).1 with
     | inr _ => Return (RetBool true)
     | inl e => FailJson ("Could not delete ldap: " ++ e)
     end,
     World (delete_auth_source_ldap theforeman (remote w)
              (obj_get ldap "id")).2
       (calls w ++ [DeleteAuthSourceLdap (obj_get ldap "id")])%list).
Proof.
  intros Hldap. unfold decide_action. rewrite Hldap.
  change (py_eq (VStr "absent") (VStr "absent")) with true.
  cbn [negb andb].
  unfold try_except, bind, writing, fail_json, ret.
  by destruct (delete_auth_source_ldap theforeman (remote w) _).1.
Qed.

(** A record, a state other than [absent], and a comparison key that
    differs: one update, and the tuple [(True, ldap)] unless it raises. *)
Lemma decide_action_update (state : value) (ldap : object) (data : dict)
  (w : world Remote) :
  truthy_obj ldap = true →
  py_eq state (VStr "absent") = false →
  existsb (key_differs data (default ∅ ldap)) cmp_keys = true →
  decide_action theforeman state ldap data w
  = (match (update_auth_source_ldap theforeman (remote w)
              (obj_get ldap "id") data).1 with
     | inr updated => Return (RetTuple true updated)
     | inl e => FailJson ("Could not update hostgroup: " ++ e)
     end,
     World (update_auth_source_ldap theforeman (remote w)
              (obj_get ldap "id") data).2
       (calls w ++ [UpdateAuthSourceLdap (obj_get ldap "id") data])%list).
Proof.
  intros Hldap Hstate Hdiff. unfold decide_action.
  rewrite Hldap, Hstate. cbn [negb andb].
  unfold bind at 1, lift. rewrite ldaps_equal_loop, Hdiff. cbn [negb].
  unfold try_except, bind, writing, fail_json, ret.
  by destruct (update_auth_source_ldap theforeman (remote w) _ data).1.
Qed.

(** A record, a state other than [absent], and no comparison key that
    differs: the comparator reads the unbound name, and [ensure] ends
    there. *)
Lemma decide_action_unbound (state : value) (ldap : object) (data : dict)
  (w : world Remote) :
  truthy_obj ldap = true →
  py_eq state (VStr "absent") = false →
  existsb (key_differs data (default ∅ ldap)) cmp_keys = false →
  decide_action theforeman state ldap data w
  = (NameError "organizations_equal", w).
Proof.
  intros Hldap Hstate Hdiff. unfold decide_action.
  rewrite Hldap, Hstate. cbn [negb andb].
  unfold bind at 1, lift. by rewrite ldaps_equal_loop, Hdiff.
Qed.

(** With [state] at [present], the decision never returns [False]. *)
Lemma decide_action_present (ldap : object) (data : dict)
  (w : world Remote) :
  returns false (decide_action theforeman (VStr "present") ldap data w).1
  = false.
Proof.
  destruct (truthy_obj ldap) eqn:Hldap.
  - destruct (existsb (key_differs data (default ∅ ldap)) cmp_keys) eqn:Hd.
    + rewrite decide_action_update by done. simpl.
      by destruct (update_auth_source_ldap theforeman (remote w) _ data).1.
    + by rewrite decide_action_unbound.
  - rewrite decide_action_create by done. simpl.
    by destruct (create_auth_source_ldap theforeman (remote w) data).1.
Qed.

(** C7, where it fails: a task with [state] at [present] never ends in
    [changed=False], so a second run of it does not either.  Whatever the
    server holds and answers, [ensure] creates, updates, fails or, with
    nothing to change, ends in [NameError] at [organizations_equal]. *)
Theorem ensure_present_never_false (module : AnsibleModule)
  (w : world Remote) :
  dict_get (params module) "state" = VStr "present" →
  returns false (ensure theforeman module w).1 = false.
Proof.
  intros Hstate. unfold ensure, bind. rewrite Hstate.
  destruct (fetch_ldap theforeman _ w) as [[ldap| | |] w1]; try done.
  destruct (build_data theforeman module w1) as [[data| | |] w2]; try done.
  apply decide_action_present.
Qed.

End Decision.

(** ** The decision table *)

(** What the fetch and the request leave behind: the server as it was, and
    no mutating call. *)
Lemma before_decision {Remote} (theforeman : Foreman Remote)
  (module : AnsibleModule) (r : Remote) (ldap : object)
  (w1 w2 : world Remote) (data : dict) :
  fetch_ldap theforeman {["name" := dict_get (params module) "name"]}
    (World r []) = (Return ldap, w1) →
  build_data theforeman module w1 = (Return data, w2) →
  remote w2 = r ∧ List.filter mutating (calls w2) = [].
Proof.
  intros Hfetch Hbuild.
  pose proof (fetch_ldap_reads theforeman
                {["name" := dict_get (params module) "name"]} (World r []))
    as H1.
  pose proof (build_data_reads theforeman module w1) as H2.
  rewrite Hfetch in H1. rewrite Hbuild in H2. simpl in H1, H2.
  destruct (only_reads_trans _ _ _ H1 H2) as [Hr (cs & Hcs & Hm)].
  simpl in Hr, Hcs. by rewrite Hcs.
Qed.




(** ** Names that do not resolve *)

Section Unresolved.

Context {Remote : Type}.
Variable theforeman : Foreman Remote.
Variable module : AnsibleModule.
Variables (r : Remote) (ldap : object) (w1 : world Remote).
Hypothesis fetched :
  fetch_ldap theforeman {["name" := dict_get (params module) "name"]}
    (World r []) = (Return ldap, w1).

Lemma fetched_reads : remote w1 = r ∧ List.filter mutating (calls w1) = [].
Proof.
  pose proof (fetch_ldap_reads theforeman
                {["name" := dict_get (params module) "name"]} (World r []))
    as [Hr (cs & Hcs & Hquiet)].
  rewrite fetched in Hr, Hcs. simpl in Hr, Hcs. by subst cs.
Qed.

Lemma build_data_unresolved_organization (pre : list string) (n : string)
  (post : list string) (w : world Remote) :
  organizations module = Some (pre ++ n :: post)%list →
  forallb (resolves (search_organization theforeman) (remote w)) pre = true →
  missing (search_organization theforeman) (remote w) n = true →
  build_data theforeman module w
  = (FailJson ("Could not find Organization " ++ n),
     World (remote w)
       (calls w ++ searches SearchOrganization (pre ++ [n]))%list).
Proof.
  intros Horg Hpre Hn. unfold build_data. rewrite Horg.
  apply bind_fail_json, bind_fail_json. unfold get_organization_ids.
  rewrite get_organization_ids_from_resolve.
  by apply resolve_from_missing.
Qed.

Lemma build_data_unresolved_location (pre : list string) (n : string)
  (post : list string) (w : world Remote) :
  locations module = Some (pre ++ n :: post)%list →
  from_option (forallb (resolves (search_organization theforeman) (remote w)))
    true (organizations module) = true →
  forallb (resolves (search_location theforeman) (remote w)) pre = true →
  missing (search_location theforeman) (remote w) n = true →
  build_data theforeman module w
  = (FailJson ("Could not find Location " ++ n),
     World (remote w)
       (calls w
        ++ from_option (searches SearchOrganization) [] (organizations module)
        ++ searches SearchLocation (pre ++ [n]))%list).
Proof.
  intros Hloc Horgs Hpre Hn. unfold build_data. rewrite Hloc.
  destruct (organizations module) as [orgs|]; simpl in Horgs.
  - eapply bind_return.
    { eapply bind_return; [| reflexivity]. unfold get_organization_ids.
      rewrite get_organization_ids_from_resolve.
      by apply resolve_from_all. }
    apply bind_fail_json. unfold get_location_ids.
    rewrite get_location_ids_from_resolve.
    rewrite resolve_from_missing by done. simpl. by rewrite <- app_assoc.
  - eapply bind_return; [reflexivity |].
    apply bind_fail_json. unfold get_location_ids.
    rewrite get_location_ids_from_resolve.
    by apply resolve_from_missing.
Qed.

Lemma ensure_unresolved_organization (pre : list string) (n : string)
  (post : list string) :
  organizations module = Some (pre ++ n :: post)%list →
  forallb (resolves (search_organization theforeman) r) pre = true →
  missing (search_organization theforeman) r n = true →
  ensure theforeman module (World r [])
  = (FailJson ("Could not find Organization " ++ n),
     World r (calls w1 ++ searches SearchOrganization (pre ++ [n]))%list).
Proof.
  intros Horg Hpre Hn. destruct fetched_reads as [Hr _].
  unfold ensure. eapply bind_return; [exact fetched |].
  apply bind_fail_json.
  rewrite <- Hr in Hpre, Hn |- *.
  by apply (build_data_unresolved_organization pre n post).
Qed.

Lemma ensure_unresolved_location (pre : list string) (n : string)
  (post : list string) :
  locations module = Some (pre ++ n :: post)%list →
  from_option (forallb (resolves (search_organization theforeman) r)) true
    (organizations module) = true →
  forallb (resolves (search_location theforeman) r) pre = true →
  missing (search_location theforeman) r n = true →
  ensure theforeman module (World r [])
  = (FailJson ("Could not find Location " ++ n),
     World r
       (calls w1
        ++ from_option (searches SearchOrganization) [] (organizations module)
        ++ searches SearchLocation (pre ++ [n]))%list).
Proof.
  intros Hloc Horgs Hpre Hn. destruct fetched_reads as [Hr _].
  unfold ensure. eapply bind_return; [exact fetched |].
  apply bind_fail_json.
  rewrite <- Hr in Horgs, Hpre, Hn |- *.
  by apply (build_data_unresolved_location pre n post).
Qed.

End Unresolved.

(** C4: when the lookup of the record has answered and the list of
    organizations (or, the organizations resolved, the list of locations)
    holds a name for which the search finds nothing, the names before it
    resolving, then [ensure] ends in [fail_json] with a message made of the
    kind and the missing name; no list of identifiers is returned, the names
    after the missing one are not searched, the server is as it was, and no
    mutating call is made. *)
Theorem unresolved_name_fails {Remote} (theforeman : Foreman Remote)
  (module : AnsibleModule) (r : Remote) (ldap : object) (w1 : world Remote)
  (pre : list string) (n : string) (post : list string) :
  fetch_ldap theforeman {["name" := dict_get (params module) "name"]}
    (World r []) = (Return ldap, w1) →
  let run := ensure theforeman module (World r []) in
  (organizations module = Some (pre ++ n :: post)%list →
   forallb (resolves (search_organization theforeman) r) pre = true →
   missing (search_organization theforeman) r n = true →
   run.1 = FailJson ("Could not find Organization " ++ n)
   ∧ calls run.2 = (calls w1 ++ searches SearchOrganization (pre ++ [n]))%list
   ∧ remote run.2 = r
   ∧ List.filter mutating (calls run.2) = [])
  ∧ (locations module = Some (pre ++ n :: post)%list →
     from_option (forallb (resolves (search_organization theforeman) r)) true
       (organizations module) = true →
     forallb (resolves (search_location theforeman) r) pre = true →
     missing (search_location theforeman) r n = true →
     run.1 = FailJson ("Could not find Location " ++ n)
     ∧ calls run.2
       = (calls w1
          ++ from_option (searches SearchOrganization) [] (organizations module)
          ++ searches SearchLocation (pre ++ [n]))%list
     ∧ remote run.2 = r
     ∧ List.filter mutating (calls run.2) = []).
Proof.
  intros Hfetch run.
  destruct (fetched_reads _ _ _ _ _ Hfetch) as [_ Hquiet].
  subst run. split.
  - intros Horg Hpre Hn.
    rewrite (ensure_unresolved_organization _ _ _ _ _ Hfetch _ _ _
               Horg Hpre Hn). simpl.
    by rewrite List.filter_app, Hquiet, searches_read.
  - intros Hloc Horgs Hpre Hn.
    rewrite (ensure_unresolved_location _ _ _ _ _ Hfetch _ _ _
               Hloc Horgs Hpre Hn). simpl.
    rewrite !List.filter_app, Hquiet, (searches_read SearchLocation) by done.
    destruct (organizations module); simpl; [| done].
    by rewrite searches_read.
Qed.

(** The spec's scenario: [organizations=["DoesNotExist"]] on a server that
    has no such organization. *)
Lemma unresolved_name_fails_witness :
  (ensure in_memory (test_ldap_in (Some ["DoesNotExist"]) None)
     (World empty_server [])).1
  = FailJson "Could not find Organization DoesNotExist"
  ∧ List.filter mutating
      (calls (ensure in_memory (test_ldap_in (Some ["DoesNotExist"]) None)
                (World empty_server [])).2) = [].
Proof.
  destruct (unresolved_name_fails in_memory
              (test_ldap_in (Some ["DoesNotExist"]) None) empty_server None
              (World empty_server
                 [SearchAuthSourceLdap {["name" := VStr "Test LDAP"]}])
              [] "DoesNotExist" []) as [Horg _].
  - vm_compute. reflexivity.
  - destruct Horg as (Hout & _ & _ & Hquiet).
    + reflexivity.
    + reflexivity.
    + vm_compute. reflexivity.
    + split; [exact Hout | exact Hquiet].
Defined.

(** ** Searches that raise *)

Section SearchError.

Context {Remote : Type}.
Variable theforeman : Foreman Remote.
Variable module : AnsibleModule.

Lemma build_data_organization_error (pre : list string) (n : string)
  (post : list string) (e : string) (w : world Remote) :
  organizations module = Some (pre ++ n :: post)%list →
  forallb (resolves (search_organization theforeman) (remote w)) pre = true →
  search_organization theforeman (remote w) (by_name n) = inl e →
  build_data theforeman module w
  = (NameError "locations",
     World (remote w)
       (calls w ++ searches SearchOrganization (pre ++ [n]))%list).
Proof.
  intros Horg Hpre Hn. unfold build_data. rewrite Horg.
  apply bind_name_error, bind_name_error. unfold get_organization_ids.
  rewrite get_organization_ids_from_resolve.
  by erewrite resolve_from_error.
Qed.

Lemma build_data_location_error (pre : list string) (n : string)
  (post : list string) (e : string) (w : world Remote) :
  locations module = Some (pre ++ n :: post)%list →
  from_option (forallb (resolves (search_organization theforeman) (remote w)))
    true (organizations module) = true →
  forallb (resolves (search_location theforeman) (remote w)) pre = true →
  search_location theforeman (remote w) (by_name n) = inl e →
  build_data theforeman module w
  = (FailJson ("Search for Location '" ++ n ++ "' throws an Error: " ++ e),
     World (remote w)
       (calls w
        ++ from_option (searches SearchOrganization) [] (organizations module)
        ++ searches SearchLocation (pre ++ [n]))%list).
Proof.
  intros Hloc Horgs Hpre Hn. unfold build_data. rewrite Hloc.
  destruct (organizations module) as [orgs|]; simpl in Horgs.
  - eapply bind_return.
    { eapply bind_return; [| reflexivity]. unfold get_organization_ids.
      rewrite get_organization_ids_from_resolve.
      by apply resolve_from_all. }
    apply bind_fail_json. unfold get_location_ids.
    rewrite get_location_ids_from_resolve.
    erewrite resolve_from_error by done. simpl. by rewrite <- app_assoc.
  - eapply bind_return; [reflexivity |].
    apply bind_fail_json. unfold get_location_ids.
    rewrite get_location_ids_from_resolve.
    by erewrite resolve_from_error.
Qed.

End SearchError.

(** C5, the organizations: when the search for an organization raises, the
    [except] clause of [get_organization_ids] formats its message from
    [locations[i]], a name the function does not have, and the run ends in
    [NameError] instead of a [fail_json] that carries the kind and the
    server's message. *)
Theorem organization_search_error {Remote} (theforeman : Foreman Remote)
  (module : AnsibleModule) (r : Remote) (ldap : object) (w1 : world Remote)
  (pre : list string) (n : string) (post : list string) (e : string) :
  fetch_ldap theforeman {["name" := dict_get (params module) "name"]}
    (World r []) = (Return ldap, w1) →
  organizations module = Some (pre ++ n :: post)%list →
  forallb (resolves (search_organization theforeman) r) pre = true →
  search_organization theforeman r (by_name n) = inl e →
  (main theforeman module (World r [])).1 = NameError "locations".
Proof.
  intros Hfetch Horg Hpre Hn.
  destruct (fetched_reads _ _ _ _ _ Hfetch) as [Hr _].
  unfold main, ensure.
  erewrite bind_name_error; [reflexivity |].
  eapply bind_return; [exact Hfetch |].
  apply bind_name_error.
  rewrite <- Hr in Hpre, Hn.
  by apply (build_data_organization_error _ _ pre n post e).
Qed.

Lemma organization_search_error_witness :
  (main in_memory (test_ldap_in (Some ["Default Organization"]) None)
     (World failing_server [])).1 = NameError "locations".
Proof.
  apply (organization_search_error in_memory
           (test_ldap_in (Some ["Default Organization"]) None)
           failing_server None
           (World failing_server
              [SearchAuthSourceLdap {["name" := VStr "Test LDAP"]}])
           [] "Default Organization" [] "503 Service Unavailable").
  - vm_compute. reflexivity.
  - reflexivity.
  - reflexivity.
  - reflexivity.
Defined.

(** The locations have the message the organizations miss. *)
Lemma location_search_error {Remote} (theforeman : Foreman Remote)
  (module : AnsibleModule) (r : Remote) (ldap : object) (w1 : world Remote)
  (pre : list string) (n : string) (post : list string) (e : string) :
  fetch_ldap theforeman {["name" := dict_get (params module) "name"]}
    (World r []) = (Return ldap, w1) →
  locations module = Some (pre ++ n :: post)%list →
  from_option (forallb (resolves (search_organization theforeman) r)) true
    (organizations module) = true →
  forallb (resolves (search_location theforeman) r) pre = true →
  search_location theforeman r (by_name n) = inl e →
  (main theforeman module (World r [])).1
  = FailJson ("Search for Location '" ++ n ++ "' throws an Error: " ++ e).
Proof.
  intros Hfetch Hloc Horgs Hpre Hn.
  destruct (fetched_reads _ _ _ _ _ Hfetch) as [Hr _].
  rewrite <- Hr in Horgs, Hpre, Hn.
  unfold main, ensure.
  erewrite bind_fail_json; [reflexivity |].
  eapply bind_return; [exact Hfetch |].
  apply bind_fail_json.
  by apply (build_data_location_error _ _ pre n post e).
Qed.

Example location_search_error_run :
  (main in_memory (test_ldap_in None (Some ["Default Location"]))
     (World failing_server [])).1
  = FailJson
      "Search for Location 'Default Location' throws an Error: 503 Service Unavailable".
Proof. vm_compute. reflexivity. Qed.

(** ** What a run sends *)



Section Sent.

Context {Remote : Type}.
Variable theforeman : Foreman Remote.



End Sent.

(** ** Associations in the request *)

(** In the working attribute set that [ensure] builds, and that its create
    or update sends ([ensure_sent]),
    [organization_ids] is the list of the identifiers of the given
    organizations, so the empty list when [organizations] is the empty list,
    and the key is absent when [organizations] is unset; likewise
    [location_ids] for [locations]. *)
Theorem association_keys {Remote} (theforeman : Foreman Remote)
  (module : AnsibleModule) (w w' : world Remote) (data : dict) :
  build_data theforeman module w = (Return data, w') →
  (data !! "organization_ids"
   = VList <$> organization_ids theforeman module (remote w)
   ∧ data !! "location_ids"
     = VList <$> location_ids theforeman module (remote w))
  ∧ (organizations module = Some [] →
     data !! "organization_ids" = Some (VList []))
  ∧ (organizations module = None → data !! "organization_ids" = None)
  ∧ (locations module = Some [] → data !! "location_ids" = Some (VList []))
  ∧ (locations module = None → data !! "location_ids" = None).
Proof.
  intros Hbuild. destruct (build_data_inv _ _ _ _ _ Hbuild) as [-> _].
  rewrite !request_lookup.
  rewrite (bool_decide_eq_false_2 ("organization_ids" = "location_ids"))
    by done.
  rewrite !bool_decide_eq_true_2 by done.
  unfold organization_ids, location_ids.
  repeat split; by intros ->.
Qed.

(** The task of the EXAMPLES with [organizations: []] and no [locations]:
    the working attribute set has [organization_ids] as the empty list and no
    [location_ids]. *)
Lemma association_keys_witness :
  ∃ data,
    (build_data in_memory (test_ldap_in (Some []) None)
       (World empty_server [])).1 = Return data
    ∧ data !! "organization_ids" = Some (VList [])
    ∧ data !! "location_ids" = None.
Proof.
  exists (<["organization_ids" := VList []]> (<["port" := VInt 389]>
            (<["host" := VStr "127.0.0.1"]> {["name" := VStr "Test LDAP"]}))).
  split; [vm_compute; reflexivity |].
  destruct (association_keys in_memory (test_ldap_in (Some []) None)
              (World empty_server []) (World empty_server [])
              (<["organization_ids" := VList []]> (<["port" := VInt 389]>
                 (<["host" := VStr "127.0.0.1"]>
                    {["name" := VStr "Test LDAP"]}))))
    as (_ & Hempty & _ & _ & Hunset).
  - vm_compute. reflexivity.
  - split; [apply Hempty | apply Hunset]; vm_compute; reflexivity.
Defined.

(** What that task sends to an empty server. *)
Example association_keys_sent :
  calls (ensure in_memory (test_ldap_in (Some []) None)
           (World empty_server [])).2
  = [SearchAuthSourceLdap {["name" := VStr "Test LDAP"]};
     CreateAuthSourceLdap
       (<["organization_ids" := VList []]> (<["port" := VInt 389]>
          (<["host" := VStr "127.0.0.1"]>
             {["name" := VStr "Test LDAP"]})))].
Proof. vm_compute. reflexivity. Qed.

(** ** Parameters in the request *)

(** C8, amended: the working attribute set that [ensure] builds, and that
    its create or update sends, holds [name] and, of the sixteen optional
    fields, exactly those whose parameter is true in Python's sense, each
    with the parameter's value.  A field left out, or given as [False], [0]
    or the empty string, is absent; the parameters are the task's arguments
    over the declared defaults, so a [port] left out is there as [389]. *)
Theorem request_keys {Remote} (theforeman : Foreman Remote) (args : dict)
  (orgs locs : option (list string)) (w w' : world Remote) (d : dict) :
  build_data theforeman (ansible_module args orgs locs) w = (Return d, w') →
  d !! "name" = Some (dict_get args "name")
  ∧ (∀ key, key ∈ keys →
       d !! key
       = if truthy (dict_get (args ∪ argument_defaults) key)
         then Some (dict_get (args ∪ argument_defaults) key)
         else None)
  ∧ (∀ key, key ∈ keys → key ≠ "port" → key ≠ "tls" →
       dict_get (args ∪ argument_defaults) key = dict_get args key)
  ∧ (args !! "port" = None → d !! "port" = Some (VInt 389)).
Proof.
  intros Hbuild. destruct (build_data_inv _ _ _ _ _ Hbuild) as [-> _].
  assert (Hkeys : ∀ key, key ∈ keys →
            request theforeman (ansible_module args orgs locs) (remote w)
            !! key
            = if truthy (dict_get (args ∪ argument_defaults) key)
              then Some (dict_get (args ∪ argument_defaults) key)
              else None).
  { intros key Hkey. rewrite request_lookup.
    rewrite !bool_decide_eq_false_2
      by (intros ->; revert Hkey; compute_done).
    rewrite base_data_lookup. rewrite bool_decide_eq_true_2 by done.
    cbn [andb params ansible_module]. destruct (truthy _); [done |].
    by rewrite bool_decide_eq_false_2
      by (intros ->; revert Hkey; compute_done). }
  split; [| split; [exact Hkeys | split]].
  - rewrite request_lookup. rewrite !bool_decide_eq_false_2 by done.
    rewrite base_data_lookup.
    rewrite (bool_decide_eq_false_2 ("name" ∈ keys)) by compute_done.
    cbn [andb params ansible_module]. unfold dict_get.
    rewrite lookup_union_l; [done |]. by vm_compute.
  - intros key Hkey Hport Htls. unfold dict_get.
    destruct (args !! key) as [v|] eqn:Harg.
    + by erewrite lookup_union_Some_l.
    + rewrite lookup_union_r by done.
      revert Hkey Hport Htls. unfold keys, cmp_keys.
      rewrite !elem_of_app, !elem_of_cons, !elem_of_nil.
      intros Hkey ? ?.
      repeat (destruct Hkey as [Hkey|Hkey]; try done;
              try (subst key; by vm_compute)).
  - intros Hport. rewrite Hkeys by compute_done.
    unfold dict_get. rewrite lookup_union_r by done.
    by vm_compute.
Qed.

(** The task of the EXAMPLES with [onthefly_register: false] added: the
    working attribute set is [name], [host] and the default [port]. *)
Lemma request_keys_witness :
  ∃ d,
    (build_data in_memory
       (ansible_module
          (<["onthefly_register" := VBool false]>
             (<["host" := VStr "127.0.0.1"]>
                {["name" := VStr "Test LDAP"]})) None None)
       (World empty_server [])).1 = Return d
    ∧ d !! "name" = Some (VStr "Test LDAP")
    ∧ d !! "onthefly_register" = None
    ∧ d !! "port" = Some (VInt 389).
Proof.
  exists (<["port" := VInt 389]>
            (<["host" := VStr "127.0.0.1"]> {["name" := VStr "Test LDAP"]})).
  split; [vm_compute; reflexivity |].
  destruct (request_keys in_memory
              (<["onthefly_register" := VBool false]>
                 (<["host" := VStr "127.0.0.1"]>
                    {["name" := VStr "Test LDAP"]})) None None
              (World empty_server []) (World empty_server [])
              (<["port" := VInt 389]>
                 (<["host" := VStr "127.0.0.1"]>
                    {["name" := VStr "Test LDAP"]})))
    as (Hname & Hkeys & _ & Hport).
  - vm_compute. reflexivity.
  - split; [exact Hname | split].
    + rewrite (Hkeys "onthefly_register") by compute_done.
      vm_compute. reflexivity.
    + apply Hport. vm_compute. reflexivity.
Defined.

(** C8 as stated fails: a field the task supplies is not always in the
    working attribute set with its value, and a field the task leaves out is
    not always absent.  A task that gives [onthefly_register: false] builds a
    set without [onthefly_register]. *)
Lemma request_keys_supplied_false :
  ¬ (∀ (args : dict) (key : string) (d : dict) (w' : world server),
       key ∈ keys →
       build_data in_memory (ansible_module args None None)
         (World empty_server []) = (Return d, w') →
       d !! key = args !! key).
Proof.
  intros Hclaim.
  specialize (Hclaim
    (<["onthefly_register" := VBool false]>
       (<["host" := VStr "127.0.0.1"]> {["name" := VStr "Test LDAP"]}))
    "onthefly_register"
    (<["port" := VInt 389]>
       (<["host" := VStr "127.0.0.1"]> {["name" := VStr "Test LDAP"]}))
    (World empty_server [])).
  assert (Hno : (<["port" := VInt 389]>
                   (<["host" := VStr "127.0.0.1"]>
                      {["name" := VStr "Test LDAP"]}) : dict)
                !! "onthefly_register"
                = Some (VBool false)).
  { rewrite Hclaim.
    - vm_compute. reflexivity.
    - compute_done.
    - vm_compute. reflexivity. }
  vm_compute in Hno. discriminate.
Qed.

(** And a [port] the task leaves out is in the set. *)
Example request_keys_default_port :
  (<["host" := VStr "127.0.0.1"]> {["name" := VStr "Test LDAP"]} : dict)
  !! "port" = None
  ∧ (build_data in_memory test_ldap (World empty_server [])).1
    = Return (<["port" := VInt 389]>
                (<["host" := VStr "127.0.0.1"]>
                   {["name" := VStr "Test LDAP"]})).
Proof. vm_compute. split; reflexivity. Qed.

(** ** Running twice *)

(** The task of the EXAMPLES creates its source on an empty server; run again
    on the server it left, its [state] being [present], it does not end in
    [changed=False]. *)
Lemma ensure_present_never_false_witness :
  (ensure in_memory test_ldap (World empty_server [])).1
  = Return (RetBool true)
  ∧ returns false
      (ensure in_memory test_ldap
         (World (remote (ensure in_memory test_ldap
                           (World empty_server [])).2) [])).1
    = false.
Proof.
  split; [vm_compute; reflexivity |].
  apply ensure_present_never_false. vm_compute. reflexivity.
Defined.

(** In that second run the record equals the request on every comparison
    key, and the run ends in [NameError] at [organizations_equal]. *)
Example second_run_unbound :
  (ensure in_memory test_ldap
     (World (remote (ensure in_memory test_ldap
                       (World empty_server [])).2) [])).1
  = NameError "organizations_equal".
Proof. vm_compute. reflexivity. Qed.

(** ** The value of [changed] *)

(** C9, the update: when the record exists, [state] is [present], a
    comparison key differs and the update does not raise, [ensure] returns
    the tuple [(True, ldap)], and [main] hands that tuple to [exit_json] as
    [changed]: the value is not a [bool]. *)
Theorem update_changed_is_tuple {Remote} (theforeman : Foreman Remote)
  (module : AnsibleModule) (r : Remote) (ldap : object)
  (w1 w2 : world Remote) (data : dict) (updated : object) :
  fetch_ldap theforeman {["name" := dict_get (params module) "name"]}
    (World r []) = (Return ldap, w1) →
  build_data theforeman module w1 = (Return data, w2) →
  truthy_obj ldap = true →
  dict_get (params module) "state" = VStr "present" →
  existsb (key_differs data (default ∅ ldap)) cmp_keys = true →
  (update_auth_source_ldap theforeman r (obj_get ldap "id") data).1
  = inr updated →
  (main theforeman module (World r [])).1
  = Return {| changed := RetTuple true updated;
              name := dict_get (params module) "name" |}
  ∧ is_bool (RetTuple true updated) = false.
Proof.
  intros Hfetch Hbuild Hldap Hstate Hdiff Hupdate.
  destruct (before_decision _ _ _ _ _ _ _ Hfetch Hbuild) as [Hr _].
  split; [| reflexivity].
  unfold main, bind at 1.
  rewrite (ensure_steps _ _ _ _ _ _ _ Hfetch Hbuild), Hstate.
  rewrite decide_action_update by done.
  by rewrite Hr, Hupdate.
Qed.

(** On a server whose record has another [host], the task of the EXAMPLES is
    an update, and [changed] is the tuple of [True] and the updated
    record. *)
Lemma update_changed_is_tuple_witness :
  (main in_memory test_ldap (World stale_server [])).1
  = Return
      {| changed :=
           RetTuple true
             (Some (<["id" := VInt 7]> (<["port" := VInt 389]>
                (<["host" := VStr "127.0.0.1"]>
                   {["name" := VStr "Test LDAP"]}))));
         name := VStr "Test LDAP" |}.
Proof.
  apply (update_changed_is_tuple in_memory test_ldap stale_server
           (Some (<["id" := VInt 7]> (<["host" := VStr "10.0.0.1"]>
              {["name" := VStr "Test LDAP"]})))
           (World stale_server
              [SearchAuthSourceLdap {["name" := VStr "Test LDAP"]};
               GetAuthSourceLdap (VInt 7)])
           (World stale_server
              [SearchAuthSourceLdap {["name" := VStr "Test LDAP"]};
               GetAuthSourceLdap (VInt 7)])
           (<["port" := VInt 389]> (<["host" := VStr "127.0.0.1"]>
              {["name" := VStr "Test LDAP"]}))).
  - vm_compute. reflexivity.
  - vm_compute. reflexivity.
  - vm_compute. reflexivity.
  - vm_compute. reflexivity.
  - vm_compute. reflexivity.
  - vm_compute. reflexivity.
Defined.

(** ** The password *)

Section Password.

Context {Remote : Type}.
Variable theforeman : Foreman Remote.
Variables m1 m2 : AnsibleModule.
Hypothesis same_params :
  delete "account_password" (params m1)
  = delete "account_password" (params m2).
Hypothesis same_organizations : organizations m1 = organizations m2.
Hypothesis same_locations : locations m1 = locations m2.







End Password.



(** * More properties *)

(** ** The shape of a run *)

Section Shape.

Context {Remote : Type}.
Variable theforeman : Foreman Remote.

(** The decision makes no call and leaves the server alone, or makes exactly
    one call: the create when there is no record and [state] is [present],
    the delete when there is a record and [state] is [absent], the update
    when there is a record, [state] is not [absent] and a comparison key
    differs. *)
Lemma decide_action_shape (state : value) (ldap : object) (data : dict)
  (w : world Remote) :
  (calls (decide_action theforeman state ldap data w).2 = calls w
   ∧ remote (decide_action theforeman state ldap data w).2 = remote w)
  ∨ (calls (decide_action theforeman state ldap data w).2
     = (calls w ++ [CreateAuthSourceLdap data])%list
     ∧ truthy_obj ldap = false ∧ state = VStr "present")
  ∨ (calls (decide_action theforeman state ldap data w).2
     = (calls w ++ [DeleteAuthSourceLdap (obj_get ldap "id")])%list
     ∧ truthy_obj ldap = true ∧ state = VStr "absent")
  ∨ (calls (decide_action theforeman state ldap data w).2
     = (calls w ++ [UpdateAuthSourceLdap (obj_get ldap "id") data])%list
     ∧ truthy_obj ldap = true ∧ py_eq state (VStr "absent") = false
     ∧ existsb (key_differs data (default ∅ ldap)) cmp_keys = true).
Proof.
  destruct (truthy_obj ldap) eqn:Hldap.
  - destruct (py_eq state (VStr "absent")) eqn:Hstate.
    + apply py_eq_str in Hstate as ->.
      rewrite decide_action_delete by done. right. right. left. done.
    + destruct (existsb (key_differs data (default ∅ ldap)) cmp_keys)
        eqn:Hdiff.
      * rewrite decide_action_update by done. right. right. right. done.
      * rewrite decide_action_unbound by done. left. done.
  - destruct (py_eq state (VStr "present")) eqn:Hstate.
    + apply py_eq_str in Hstate as ->.
      rewrite decide_action_create by done. right. left. done.
    + rewrite decide_action_nothing by done. left. done.
Qed.

(** A run of [ensure] is a stretch of reading calls, after which the
    decision is taken on the record that was fetched and the request that
    was built, or the run has ended. *)
Lemma ensure_shape (module : AnsibleModule) (r : Remote) :
  ∃ reads : list call,
    List.filter mutating reads = []
    ∧ ((calls (ensure theforeman module (World r [])).2 = reads
        ∧ remote (ensure theforeman module (World r [])).2 = r)
       ∨ ∃ ldap data,
           ensure theforeman module (World r [])
           = decide_action theforeman (dict_get (params module) "state")
               ldap data (World r reads)).
Proof.
  unfold ensure, bind.
  pose proof (fetch_ldap_reads theforeman
                {["name" := dict_get (params module) "name"]} (World r []))
    as Hfetch.
  destruct (fetch_ldap theforeman _ (World r [])) as [o1 w1].
  pose proof (build_data_reads theforeman module w1) as Hbuild.
  destruct (build_data theforeman module w1) as [o2 w2].
  cbn [snd] in Hfetch, Hbuild.
  pose proof (only_reads_trans _ _ _ Hfetch Hbuild) as Hboth.
  destruct Hfetch as [Hr1 (cs1 & Hcs1 & Hq1)].
  destruct Hboth as [Hr2 (cs2 & Hcs2 & Hq2)].
  cbn [remote calls app] in Hr1, Hcs1, Hr2, Hcs2.
  destruct o1 as [ldap| | |];
    try (exists cs1; split; [exact Hq1 | left; by split]).
  destruct o2 as [data| | |];
    try (exists cs2; split; [exact Hq2 | left; by split]).
  exists cs2. split; [exact Hq2 |]. right. exists ldap, data.
  destruct w2 as [r2 c2]. cbn [remote calls] in Hr2, Hcs2. by subst.
Qed.

End Shape.

(** ** At most one change *)

(** Whatever the task, the server and the client's answers, a run of
    [ensure] makes at most one mutating call. *)
Theorem ensure_at_most_one_mutation {Remote} (theforeman : Foreman Remote)
  (module : AnsibleModule) (r : Remote) :
  (length (List.filter mutating
             (calls (ensure theforeman module (World r [])).2)) ≤ 1)%nat.
Proof.
  destruct (ensure_shape theforeman module r)
    as (reads & Hquiet & [[-> _] | (ldap & data & ->)]).
  - rewrite Hquiet. simpl. lia.
  - destruct (decide_action_shape theforeman
                (dict_get (params module) "state") ldap data (World r reads))
      as [[-> _] | [(-> & _) | [(-> & _) | (-> & _)]]];
      cbn [calls]; rewrite ?List.filter_app, Hquiet; simpl; lia.
Qed.

(** What the decision returns tells what it did: [False] after no call, with
    the server as it was; [True], or the tuple, after exactly one mutating
    call. *)
Lemma decide_action_flag {Remote} (theforeman : Foreman Remote)
  (state : value) (ldap : object) (data : dict) (w : world Remote) :
  match (decide_action theforeman state ldap data w).1 with
  | Return (RetBool false) =>
      calls (decide_action theforeman state ldap data w).2 = calls w
      ∧ remote (decide_action theforeman state ldap data w).2 = remote w
  | Return (RetBool true) =>
      ∃ c, calls (decide_action theforeman state ldap data w).2
           = (calls w ++ [c])%list ∧ mutating c = true
  | Return (RetTuple b _) =>
      b = true
      ∧ ∃ c, calls (decide_action theforeman state ldap data w).2
             = (calls w ++ [c])%list ∧ mutating c = true
  | _ => True
  end.
Proof.
  destruct (truthy_obj ldap) eqn:Hldap.
  - destruct (py_eq state (VStr "absent")) eqn:Hstate.
    + apply py_eq_str in Hstate as ->.
      rewrite decide_action_delete by done. cbn [fst snd calls].
      destruct (delete_auth_source_ldap theforeman (remote w) _).1;
        [done | by eexists].
    + destruct (existsb (key_differs data (default ∅ ldap)) cmp_keys)
        eqn:Hdiff.
      * rewrite decide_action_update by done. cbn [fst snd calls].
        destruct (update_auth_source_ldap theforeman (remote w) _ data).1;
          [done | split; [done | by eexists]].
      * by rewrite decide_action_unbound.
  - destruct (py_eq state (VStr "present")) eqn:Hstate.
    + apply py_eq_str in Hstate as ->.
      rewrite decide_action_create by done. cbn [fst snd calls].
      destruct (create_auth_source_ldap theforeman (remote w) data).1;
        [done | by eexists].
    + by rewrite decide_action_nothing.
Qed.

(** The value [ensure] returns is true to what the run did.  A run that
    returns [False] has made no mutating call and left the server as it found
    it; a run that returns [True], or the tuple of the update, whose first
    component is then [True], has made exactly one mutating call. *)
Theorem ensure_changed_is_accurate {Remote} (theforeman : Foreman Remote)
  (module : AnsibleModule) (r : Remote) :
  match (ensure theforeman module (World r [])).1 with
  | Return (RetBool false) =>
      List.filter mutating
        (calls (ensure theforeman module (World r [])).2) = []
      ∧ remote (ensure theforeman module (World r [])).2 = r
  | Return (RetBool true) =>
      length (List.filter mutating
                (calls (ensure theforeman module (World r [])).2)) = 1%nat
  | Return (RetTuple b _) =>
      b = true
      ∧ length (List.filter mutating
                  (calls (ensure theforeman module (World r [])).2)) = 1%nat
  | _ => True
  end.
Proof.
  unfold ensure, bind.
  pose proof (fetch_ldap_reads theforeman
                {["name" := dict_get (params module) "name"]} (World r []))
    as Hfetch.
  destruct (fetch_ldap theforeman _ (World r [])) as [o1 w1].
  pose proof (build_data_reads theforeman module w1) as Hbuild.
  destruct (build_data theforeman module w1) as [o2 w2].
  cbn [snd] in Hfetch, Hbuild.
  destruct (only_reads_trans _ _ _ Hfetch Hbuild)
    as [Hr (cs & Hcs & Hquiet)].
  cbn [remote calls app] in Hr, Hcs.
  destruct o1 as [ldap| | |]; try exact I.
  destruct o2 as [data| | |]; try exact I.
  pose proof (decide_action_flag theforeman
                (dict_get (params module) "state") ldap data w2) as Hflag.
  destruct (decide_action theforeman _ ldap data w2) as [[[[|]|b u]| | |] w3];
    cbn [fst snd] in Hflag |- *; try exact I.
  - destruct Hflag as (c & -> & Hc).
    by rewrite Hcs, List.filter_app, Hquiet; cbn; rewrite Hc.
  - destruct Hflag as [-> ->]. by rewrite Hcs, Hquiet, Hr.
  - destruct Hflag as (-> & c & -> & Hc). split; [done |].
    by rewrite Hcs, List.filter_app, Hquiet; cbn; rewrite Hc.
Qed.

(** ** What each state can do *)

(** With [state] at [absent], a run never creates and never updates: its
    mutating calls, if any, are deletes. *)
Theorem ensure_absent_only_deletes {Remote} (theforeman : Foreman Remote)
  (module : AnsibleModule) (r : Remote) :
  dict_get (params module) "state" = VStr "absent" →
  List.filter mutating (calls (ensure theforeman module (World r [])).2)
  = List.filter is_delete (calls (ensure theforeman module (World r [])).2)
  ∧ List.filter is_create
      (calls (ensure theforeman module (World r [])).2) = []
  ∧ List.filter is_update
      (calls (ensure theforeman module (World r [])).2) = [].
Proof.
  intros Hstate.
  assert (Hreads : ∀ reads, List.filter mutating reads = [] →
            List.filter is_delete reads = []
            ∧ List.filter is_create reads = []
            ∧ List.filter is_update reads = []).
  { induction reads as [|c reads IH]; [done |]. simpl.
    destruct c; simpl; try discriminate; exact IH. }
  destruct (ensure_shape theforeman module r)
    as (reads & Hquiet & [[-> _] | (ldap & data & ->)]).
  - destruct (Hreads _ Hquiet) as (Hd & Hc & Hu). by rewrite Hquiet, Hd.
  - destruct (Hreads _ Hquiet) as (Hd & Hc & Hu). rewrite Hstate.
    destruct (decide_action_shape theforeman (VStr "absent") ldap data
                (World r reads))
      as [[-> _] | [(_ & _ & Habs) | [(-> & _) | (_ & _ & Habs & _)]]];
      try discriminate; cbn [calls];
      rewrite ?List.filter_app, ?Hquiet, ?Hd, ?Hc, ?Hu; done.
Qed.

Lemma ensure_absent_only_deletes_witness :
  List.filter mutating
    (calls (ensure in_memory test_ldap_absent (World synced_server [])).2)
  = [DeleteAuthSourceLdap (VInt 1)].
Proof.
  destruct (ensure_absent_only_deletes in_memory test_ldap_absent
              synced_server) as [Hmut _].
  - vm_compute. reflexivity.
  - rewrite Hmut. vm_compute. reflexivity.
Defined.

(** With [state] at [present], a run never deletes. *)
Theorem ensure_present_never_deletes {Remote} (theforeman : Foreman Remote)
  (module : AnsibleModule) (r : Remote) :
  dict_get (params module) "state" = VStr "present" →
  List.filter is_delete
    (calls (ensure theforeman module (World r [])).2) = [].
Proof.
  intros Hstate.
  assert (Hreads : ∀ reads, List.filter mutating reads = [] →
            List.filter is_delete reads = []).
  { induction reads as [|c reads IH]; [done |]. simpl.
    destruct c; simpl; try discriminate; exact IH. }
  destruct (ensure_shape theforeman module r)
    as (reads & Hquiet & [[-> _] | (ldap & data & ->)]).
  - by apply Hreads.
  - rewrite Hstate.
    destruct (decide_action_shape theforeman (VStr "present") ldap data
                (World r reads))
      as [[-> _] | [(-> & _) | [(_ & _ & Habs) | (-> & _)]]];
      try discriminate; cbn [calls];
      rewrite ?List.filter_app, (Hreads _ Hquiet); done.
Qed.

Lemma ensure_present_never_deletes_witness :
  List.filter is_delete
    (calls (ensure in_memory test_ldap (World stale_server [])).2) = [].
Proof.
  apply ensure_present_never_deletes. vm_compute. reflexivity.
Defined.

(** ** Remote errors *)

(** When the search for the LDAP source raises, or its fetch does, the run
    ends in [fail_json] with ["Could not get ldap: "] and the server's
    message; no name has been searched and nothing has been changed. *)
Theorem ensure_lookup_error {Remote} (theforeman : Foreman Remote)
  (module : AnsibleModule) (r : Remote) (e : string) :
  let by_its_name := ({["name" := dict_get (params module) "name"]} : dict) in
  (search_auth_source_ldap theforeman r by_its_name = inl e →
   ensure theforeman module (World r [])
   = (FailJson ("Could not get ldap: " ++ e),
      World r [SearchAuthSourceLdap by_its_name]))
  ∧ (∀ found,
       search_auth_source_ldap theforeman r by_its_name = inr found →
       truthy_obj found = true →
       get_auth_source_ldap theforeman r (obj_get found "id") = inl e →
       ensure theforeman module (World r [])
       = (FailJson ("Could not get ldap: " ++ e),
          World r [SearchAuthSourceLdap by_its_name;
                   GetAuthSourceLdap (obj_get found "id")])).
Proof.
  intros by_its_name. split.
  - intros Hsearch. unfold ensure. apply bind_fail_json.
    unfold fetch_ldap, try_except, bind, reading, fail_json, answer.
    cbn [remote calls]. fold by_its_name. by rewrite Hsearch.
  - intros found Hsearch Hfound Hget. unfold ensure. apply bind_fail_json.
    unfold fetch_ldap, try_except, bind, reading, fail_json, answer.
    cbn [remote calls]. fold by_its_name. rewrite Hsearch, Hfound.
    cbn [remote calls]. by rewrite Hget.
Qed.

Lemma ensure_lookup_error_witness :
  ensure (unreachable "connection refused") test_ldap (World empty_server [])
  = (FailJson "Could not get ldap: connection refused",
     World empty_server
       [SearchAuthSourceLdap {["name" := VStr "Test LDAP"]}]).
Proof.
  destruct (ensure_lookup_error (unreachable "connection refused") test_ldap
              empty_server "connection refused") as [Hsearch _].
  rewrite Hsearch by reflexivity.
  vm_compute. reflexivity.
Defined.

(** When the one mutating call of a run raises, the run ends in [fail_json]
    with the server's message after ["Could not create ldap: "] for a
    create, ["Could not delete ldap: "] for a delete, and
    ["Could not update hostgroup: "] for an update. *)
Theorem ensure_mutation_error {Remote} (theforeman : Foreman Remote)
  (module : AnsibleModule) (r : Remote) (ldap : object)
  (w1 w2 : world Remote) (data : dict) (e : string) :
  fetch_ldap theforeman {["name" := dict_get (params module) "name"]}
    (World r []) = (Return ldap, w1) →
  build_data theforeman module w1 = (Return data, w2) →
  let state := dict_get (params module) "state" in
  let run := ensure theforeman module (World r []) in
  (truthy_obj ldap = false → state = VStr "present" →
   (create_auth_source_ldap theforeman r data).1 = inl e →
   run.1 = FailJson ("Could not create ldap: " ++ e))
  ∧ (truthy_obj ldap = true → state = VStr "absent" →
     (delete_auth_source_ldap theforeman r (obj_get ldap "id")).1 = inl e →
     run.1 = FailJson ("Could not delete ldap: " ++ e))
  ∧ (truthy_obj ldap = true → state = VStr "present" →
     existsb (key_differs data (default ∅ ldap)) cmp_keys = true →
     (update_auth_source_ldap theforeman r (obj_get ldap "id") data).1
     = inl e →
     run.1 = FailJson ("Could not update hostgroup: " ++ e)).
Proof.
  intros Hfetch Hbuild state run.
  destruct (before_decision _ _ _ _ _ _ _ Hfetch Hbuild) as [Hr _].
  subst run. rewrite (ensure_steps _ _ _ _ _ _ _ Hfetch Hbuild). fold state.
  split; [| split].
  - intros Hldap -> Hraise. rewrite decide_action_create by done.
    cbn [fst]. by rewrite Hr, Hraise.
  - intros Hldap -> Hraise. rewrite decide_action_delete by done.
    cbn [fst]. by rewrite Hr, Hraise.
  - intros Hldap -> Hdiff Hraise. rewrite decide_action_update by done.
    cbn [fst]. by rewrite Hr, Hraise.
Qed.

Lemma ensure_mutation_error_witness :
  (ensure (read_only "403 Forbidden") test_ldap (World stale_server [])).1
  = FailJson "Could not update hostgroup: 403 Forbidden".
Proof.
  destruct (ensure_mutation_error (read_only "403 Forbidden") test_ldap
              stale_server
              (Some (<["id" := VInt 7]> (<["host" := VStr "10.0.0.1"]>
                 {["name" := VStr "Test LDAP"]})))
              (World stale_server
                 [SearchAuthSourceLdap {["name" := VStr "Test LDAP"]};
                  GetAuthSourceLdap (VInt 7)])
              (World stale_server
                 [SearchAuthSourceLdap {["name" := VStr "Test LDAP"]};
                  GetAuthSourceLdap (VInt 7)])
              (<["port" := VInt 389]> (<["host" := VStr "127.0.0.1"]>
                 {["name" := VStr "Test LDAP"]}))
              "403 Forbidden") as (_ & _ & Hupdate).
  - vm_compute. reflexivity.
  - vm_compute. reflexivity.
  - apply Hupdate; vm_compute; reflexivity.
Defined.

(** ** The resolvers, name by name *)

(** When every name resolves, each of the two resolvers returns one
    identifier per name, in the order of the names, after exactly one search
    per name in that order; a name given twice is searched twice. *)
Theorem resolvers_in_order {Remote} (theforeman : Foreman Remote)
  (names : list string) (w : world Remote) :
  (forallb (resolves (search_organization theforeman) (remote w)) names = true →
   get_organization_ids theforeman names w
   = (Return (map (id_of (search_organization theforeman) (remote w)) names),
      World (remote w) (calls w ++ searches SearchOrganization names)%list))
  ∧ (forallb (resolves (search_location theforeman) (remote w)) names = true →
     get_location_ids theforeman names w
     = (Return (map (id_of (search_location theforeman) (remote w)) names),
        World (remote w) (calls w ++ searches SearchLocation names)%list)).
Proof.
  split; intros Hall.
  - unfold get_organization_ids.
    rewrite get_organization_ids_from_resolve. by rewrite resolve_from_all.
  - unfold get_location_ids.
    rewrite get_location_ids_from_resolve. by rewrite resolve_from_all.
Qed.

Lemma resolvers_in_order_witness :
  get_organization_ids in_memory
    ["Default Organization"; "Default Organization"] (World empty_server [])
  = (Return [VInt 1; VInt 1],
     World empty_server
       [SearchOrganization {["name" := VStr "Default Organization"]};
        SearchOrganization {["name" := VStr "Default Organization"]}]).
Proof.
  destruct (resolvers_in_order in_memory
              ["Default Organization"; "Default Organization"]
              (World empty_server [])) as [Horg _].
  rewrite Horg by (vm_compute; reflexivity).
  vm_compute. reflexivity.
Defined.

(** A resolver that returns has resolved every name: the list it returns is
    never shorter than the list of names, and the server is as it was. *)
Theorem resolvers_return_all {Remote} (theforeman : Foreman Remote)
  (names : list string) (ids : list value) (w w' : world Remote) :
  get_organization_ids theforeman names w = (Return ids, w')
  ∨ get_location_ids theforeman names w = (Return ids, w') →
  length ids = length names ∧ remote w' = remote w.
Proof.
  intros [Hrun|Hrun].
  - pose proof (get_organization_ids_return _ _ _ _ _ Hrun) as Hall.
    unfold get_organization_ids in Hrun.
    rewrite get_organization_ids_from_resolve, resolve_from_all in Hrun
      by done.
    inversion Hrun; subst. by rewrite length_map.
  - pose proof (get_location_ids_return _ _ _ _ _ Hrun) as Hall.
    unfold get_location_ids in Hrun.
    rewrite get_location_ids_from_resolve, resolve_from_all in Hrun
      by done.
    inversion Hrun; subst. by rewrite length_map.
Qed.

Lemma resolvers_return_all_witness :
  length [VInt 2] = length ["Default Location"]
  ∧ remote (World empty_server [SearchLocation
              {["name" := VStr "Default Location"]}]) = empty_server.
Proof.
  apply (resolvers_return_all in_memory ["Default Location"] [VInt 2]
           (World empty_server [])
           (World empty_server
              [SearchLocation {["name" := VStr "Default Location"]}])).
  right. vm_compute. reflexivity.
Defined.

(** The message of a location search that raises, on the server whose
    searches raise. *)
Lemma location_search_error_witness :
  (main in_memory (test_ldap_in None (Some ["Default Location"]))
     (World failing_server [])).1
  = FailJson
      "Search for Location 'Default Location' throws an Error: 503 Service Unavailable".
Proof.
  apply (location_search_error in_memory
           (test_ldap_in None (Some ["Default Location"])) failing_server
           None
           (World failing_server
              [SearchAuthSourceLdap {["name" := VStr "Test LDAP"]}])
           [] "Default Location" [] "503 Service Unavailable").
  - vm_compute. reflexivity.
  - reflexivity.
  - reflexivity.
  - reflexivity.
  - reflexivity.
Defined.

(** ** The comparator, key by key *)

Lemma existsb_permutation {A} (f : A → bool) (l k : list A) :
  Permutation l k → existsb f l = existsb f k.
Proof.
  induction 1 as [|x l k _ IH|x y l|l k m _ IH1 _ IH2]; simpl.
  - reflexivity.
  - by rewrite IH.
  - by destruct (f x), (f y).
  - by rewrite IH1.
Qed.

(** The answer of the comparator does not depend on the order of the
    comparison keys. *)
Theorem ldaps_equal_permutation (data ldap : dict) (ks ks' : list string) :
  Permutation ks ks' →
  ldaps_equal data ldap ks = ldaps_equal data ldap ks'.
Proof.
  intros Hperm. rewrite !ldaps_equal_loop.
  by rewrite (existsb_permutation _ _ _ Hperm).
Qed.

Lemma ldaps_equal_permutation_witness :
  ldaps_equal {["host" := VStr "a"]} {["host" := VStr "b"]} ["host"; "port"]
  = ldaps_equal {["host" := VStr "a"]} {["host" := VStr "b"]}
      ["port"; "host"].
Proof. apply ldaps_equal_permutation. apply perm_swap. Defined.

(** The comparator returns [False] exactly when some comparison key has a
    value in the desired mapping that is not [==] to what the record's
    [get] gives for it; a key the desired mapping lacks never makes it
    return [False]. *)
Theorem ldaps_equal_false_iff (data ldap : dict) (ks : list string) :
  ldaps_equal data ldap ks = Return false
  ↔ ∃ k v, k ∈ ks ∧ data !! k = Some v
           ∧ py_eq v (dict_get ldap k) = false.
Proof.
  rewrite ldaps_equal_loop. split.
  - destruct (existsb (key_differs data ldap) ks) eqn:Hdiff; [| done].
    intros _. apply existsb_exists in Hdiff as (k & Hk & Hdiffers).
    unfold key_differs, dict_has, dict_get in Hdiffers.
    apply andb_prop in Hdiffers as [Hhas Hne].
    apply bool_decide_eq_true_1 in Hhas as [v Hv]. rewrite Hv in Hne.
    exists k, v. split; [by apply list_elem_of_In |].
    split; [done |]. by apply negb_true_iff in Hne.
  - intros (k & v & Hk & Hv & Hne).
    assert (Hdiff : existsb (key_differs data ldap) ks = true).
    { apply existsb_exists. exists k. split; [by apply list_elem_of_In |].
      unfold key_differs, dict_has. unfold dict_get at 1. rewrite Hv.
      change (default VNone (Some v)) with v. rewrite Hne.
      rewrite bool_decide_eq_true_2; [done |]. by eexists. }
    by rewrite Hdiff.
Qed.

(** ** A record that already matches *)

Lemma py_eq_refl : ∀ v : value, py_eq v v = true.
Proof.
  fix IH 1. intros [| b | n | s | l]; cbn.
  - reflexivity.
  - by destruct b.
  - apply Z.eqb_refl.
  - apply String.eqb_refl.
  - induction l as [|x l IHl]; [reflexivity |].
    rewrite IH. exact IHl.
Qed.

(** When the record holds, at every comparison key of the request, the value
    the request has there, a run with [state] at [present] makes no mutating
    call: the loop of the comparator finds nothing, and the run ends in
    [NameError] at [organizations_equal]. *)
Theorem ensure_matching_record {Remote} (theforeman : Foreman Remote)
  (module : AnsibleModule) (r : Remote) (ldap : dict)
  (w1 w2 : world Remote) (data : dict) :
  fetch_ldap theforeman {["name" := dict_get (params module) "name"]}
    (World r []) = (Return (Some ldap), w1) →
  build_data theforeman module w1 = (Return data, w2) →
  ldap ≠ ∅ →
  dict_get (params module) "state" = VStr "present" →
  (∀ k v, k ∈ cmp_keys → data !! k = Some v → ldap !! k = Some v) →
  (ensure theforeman module (World r [])).1
  = NameError "organizations_equal"
  ∧ List.filter mutating (calls (ensure theforeman module (World r [])).2)
    = []
  ∧ remote (ensure theforeman module (World r [])).2 = r.
Proof.
  intros Hfetch Hbuild Hldap Hstate Hsame.
  destruct (before_decision _ _ _ _ _ _ _ Hfetch Hbuild) as [Hr Hquiet].
  rewrite (ensure_steps _ _ _ _ _ _ _ Hfetch Hbuild), Hstate.
  rewrite decide_action_unbound; [done | | done |].
  - cbn [truthy_obj]. by rewrite bool_decide_eq_false_2.
  - change (default ∅ (Some ldap)) with ldap.
    apply not_true_is_false. intros Hdiff.
    apply existsb_exists in Hdiff as (k & Hk & Hdiffers).
    apply list_elem_of_In in Hk.
    unfold key_differs, dict_has, dict_get in Hdiffers.
    apply andb_prop in Hdiffers as [Hhas Hne].
    apply bool_decide_eq_true_1 in Hhas as [v Hv].
    rewrite Hv, (Hsame k v Hk Hv) in Hne.
    change (default VNone (Some v)) with v in Hne.
    by rewrite py_eq_refl in Hne.
Qed.

Lemma ensure_matching_record_witness :
  (ensure in_memory test_ldap (World synced_server [])).1
  = NameError "organizations_equal"
  ∧ List.filter mutating
      (calls (ensure in_memory test_ldap (World synced_server [])).2) = []
  ∧ remote (ensure in_memory test_ldap (World synced_server [])).2
    = synced_server.
Proof.
  apply (ensure_matching_record in_memory test_ldap synced_server
           (<["id" := VInt 1]> (<["port" := VInt 389]>
              (<["host" := VStr "127.0.0.1"]>
                 {["name" := VStr "Test LDAP"]})))
           (World synced_server
              [SearchAuthSourceLdap {["name" := VStr "Test LDAP"]};
               GetAuthSourceLdap (VInt 1)])
           (World synced_server
              [SearchAuthSourceLdap {["name" := VStr "Test LDAP"]};
               GetAuthSourceLdap (VInt 1)])
           (<["port" := VInt 389]> (<["host" := VStr "127.0.0.1"]>
              {["name" := VStr "Test LDAP"]}))).
  - vm_compute. reflexivity.
  - vm_compute. reflexivity.
  - intros Hempty.
    apply (f_equal (λ m : dict, m !! "id")) in Hempty.
    vm_compute in Hempty. discriminate.
  - vm_compute. reflexivity.
  - intros k v Hk.
    unfold cmp_keys in Hk. rewrite !elem_of_cons, elem_of_nil in Hk.
    repeat (destruct Hk as [->|Hk];
            [vm_compute; intros H; inversion H; reflexivity |]).
    destruct Hk.
Defined.

(** ** Defaults and false parameters *)

(** A task that gives no [port] and no [state] and finds a record whose
    [port] is not [389] updates that record, and the update sets [port] to
    the declared default [389]. *)
Theorem unsupplied_port_overwrites {Remote} (theforeman : Foreman Remote)
  (args : dict) (orgs locs : option (list string)) (r : Remote)
  (ldap : object) (w1 w2 : world Remote) (data : dict) :
  fetch_ldap theforeman {["name" := dict_get args "name"]} (World r [])
  = (Return ldap, w1) →
  build_data theforeman (ansible_module args orgs locs) w1
  = (Return data, w2) →
  truthy_obj ldap = true →
  args !! "state" = None →
  args !! "port" = None →
  py_eq (VInt 389) (obj_get ldap "port") = false →
  List.filter mutating
    (calls (ensure theforeman (ansible_module args orgs locs)
              (World r [])).2)
  = [UpdateAuthSourceLdap (obj_get ldap "id") data]
  ∧ data !! "port" = Some (VInt 389).
Proof.
  intros Hfetch Hbuild Hldap Hstate Hport Hother.
  assert (Hname : dict_get (params (ansible_module args orgs locs)) "name"
                  = dict_get args "name").
  { cbn [params ansible_module]. unfold dict_get.
    destruct (args !! "name") as [v|] eqn:Hn.
    - by erewrite lookup_union_Some_l.
    - by rewrite lookup_union_r. }
  rewrite <- Hname in Hfetch.
  destruct (before_decision _ _ _ _ _ _ _ Hfetch Hbuild) as [Hr Hquiet].
  assert (Hdata : data !! "port" = Some (VInt 389)).
  { destruct (build_data_inv _ _ _ _ _ Hbuild) as [-> _].
    rewrite request_lookup, !bool_decide_eq_false_2 by done.
    rewrite base_data_lookup.
    rewrite (bool_decide_eq_true_2 ("port" ∈ keys)) by compute_done.
    cbn [params ansible_module]. unfold dict_get.
    by rewrite lookup_union_r. }
  split; [| exact Hdata].
  rewrite (ensure_steps _ _ _ _ _ _ _ Hfetch Hbuild).
  rewrite decide_action_update.
  - cbn [snd calls]. by rewrite List.filter_app, Hquiet.
  - exact Hldap.
  - cbn [params ansible_module]. unfold dict_get.
    by rewrite lookup_union_r.
  - apply existsb_exists. exists "port".
    split; [apply list_elem_of_In; compute_done |].
    unfold key_differs, dict_has. unfold dict_get at 1. rewrite Hdata.
    change (default VNone (Some (VInt 389))) with (VInt 389).
    destruct ldap as [d|]; [| discriminate].
    cbn [obj_get] in Hother. change (default ∅ (Some d)) with d.
    rewrite Hother. by rewrite bool_decide_eq_true_2 by by eexists.
Qed.

Lemma unsupplied_port_overwrites_witness :
  List.filter mutating
    (calls (ensure in_memory test_ldap (World ldaps_server [])).2)
  = [UpdateAuthSourceLdap (VInt 7)
       (<["port" := VInt 389]> (<["host" := VStr "127.0.0.1"]>
          {["name" := VStr "Test LDAP"]}))].
Proof.
  destruct (unsupplied_port_overwrites in_memory
              (<["host" := VStr "127.0.0.1"]> {["name" := VStr "Test LDAP"]})
              None None ldaps_server
              (Some (<["id" := VInt 7]> (<["tls" := VBool true]>
                 (<["port" := VInt 636]> (<["host" := VStr "127.0.0.1"]>
                    {["name" := VStr "Test LDAP"]})))))
              (World ldaps_server
                 [SearchAuthSourceLdap {["name" := VStr "Test LDAP"]};
                  GetAuthSourceLdap (VInt 7)])
              (World ldaps_server
                 [SearchAuthSourceLdap {["name" := VStr "Test LDAP"]};
                  GetAuthSourceLdap (VInt 7)])
              (<["port" := VInt 389]> (<["host" := VStr "127.0.0.1"]>
                 {["name" := VStr "Test LDAP"]})))
    as [Hcalls _].
  - vm_compute. reflexivity.
  - vm_compute. reflexivity.
  - vm_compute. reflexivity.
  - vm_compute. reflexivity.
  - vm_compute. reflexivity.
  - vm_compute. reflexivity.
  - exact Hcalls.
Defined.

(** A parameter that is false in Python's sense ([None], [False], [0], the
    empty string) is never compared: whatever the record holds for that key,
    the key does not differ.  A task cannot turn [tls] off, or clear a
    field, on a record that has it. *)
Theorem false_parameter_not_compared {Remote} (theforeman : Foreman Remote)
  (module : AnsibleModule) (w w' : world Remote) (data : dict)
  (key : string) (ldap : dict) :
  build_data theforeman module w = (Return data, w') →
  key ∈ keys →
  truthy (dict_get (params module) key) = false →
  data !! key = None ∧ key_differs data ldap key = false.
Proof.
  intros Hbuild Hkey Hfalse.
  assert (Hnone : data !! key = None).
  { destruct (build_data_inv _ _ _ _ _ Hbuild) as [-> _].
    rewrite request_lookup.
    rewrite !bool_decide_eq_false_2
      by (intros ->; revert Hkey; compute_done).
    rewrite base_data_lookup, Hfalse, andb_false_r.
    by rewrite bool_decide_eq_false_2
      by (intros ->; revert Hkey; compute_done). }
  split; [exact Hnone |].
  unfold key_differs, dict_has. rewrite Hnone.
  by rewrite bool_decide_eq_false_2 by (by intros [? ?]).
Qed.

Lemma false_parameter_not_compared_witness :
  key_differs
    (<["port" := VInt 389]> (<["host" := VStr "127.0.0.1"]>
       {["name" := VStr "Test LDAP"]}))
    (<["id" := VInt 7]> (<["tls" := VBool true]> (<["port" := VInt 636]>
       (<["host" := VStr "127.0.0.1"]> {["name" := VStr "Test LDAP"]}))))
    "tls" = false.
Proof.
  apply (false_parameter_not_compared in_memory test_ldap
           (World ldaps_server []) (World ldaps_server [])).
  - vm_compute. reflexivity.
  - compute_done.
  - vm_compute. reflexivity.
Defined.

(** ** What the request never holds *)

(** The working attribute set has no key besides [name], the sixteen copied
    keys and the two identifier lists: [state] and the connection parameters
    ([foreman_host], [foreman_port], [foreman_user], [foreman_pass],
    [foreman_ssl]) are never sent to the server as attributes. *)
Theorem request_domain {Remote} (theforeman : Foreman Remote)
  (module : AnsibleModule) (w w' : world Remote) (data : dict) :
  build_data theforeman module w = (Return data, w') →
  (∀ k, is_Some (data !! k) →
        k ∈ "name" :: "organization_ids" :: "location_ids" :: keys)
  ∧ data !! "state" = None
  ∧ data !! "foreman_host" = None
  ∧ data !! "foreman_port" = None
  ∧ data !! "foreman_user" = None
  ∧ data !! "foreman_pass" = None
  ∧ data !! "foreman_ssl" = None.
Proof.
  intros Hbuild.
  assert (Hdom : ∀ k, is_Some (data !! k) →
            k ∈ "name" :: "organization_ids" :: "location_ids" :: keys).
  { destruct (build_data_inv _ _ _ _ _ Hbuild) as [-> _].
    intros k. rewrite request_lookup, base_data_lookup.
    rewrite !elem_of_cons.
    repeat case_bool_decide; intros Hsome; auto.
    cbn [andb] in Hsome. by destruct Hsome. }
  split; [exact Hdom |].
  repeat split;
    match goal with |- data !! ?k = None =>
      destruct (data !! k) eqn:Hk; [| reflexivity];
      assert (Hin : is_Some (data !! k)) by (rewrite Hk; by eexists);
      apply Hdom in Hin; revert Hin; compute_done
    end.
Qed.

Lemma request_domain_witness :
  (<["port" := VInt 389]> (<["host" := VStr "127.0.0.1"]>
     {["name" := VStr "Test LDAP"]}) : dict) !! "foreman_pass" = None.
Proof.
  destruct (request_domain in_memory
              (ansible_module
                 (<["foreman_pass" := VStr "secret"]>
                    (<["foreman_user" := VStr "admin"]>
                       (<["host" := VStr "127.0.0.1"]>
                          {["name" := VStr "Test LDAP"]}))) None None)
              (World empty_server []) (World empty_server [])
              (<["port" := VInt 389]> (<["host" := VStr "127.0.0.1"]>
                 {["name" := VStr "Test LDAP"]})))
    as (_ & _ & _ & _ & _ & Hpass & _).
  - vm_compute. reflexivity.
  - exact Hpass.
Defined.

(** ** get_user_ids *)

Section Users.

Variable search_user : dict → string + object.

Lemma get_user_ids_from_all (users : list string) :
  ∀ result : list value,
    forallb (user_found search_user) users = true →
    get_user_ids_from search_user result users
    = Return (result ++ map (user_id search_user) users)%list.
Proof.
  induction users as [|u rest IH]; intros result Hall.
  - cbn. by rewrite app_nil_r.
  - cbn [forallb] in Hall. apply andb_prop in Hall as [Hu Hrest].
    unfold user_found in Hu. cbn [get_user_ids_from map].
    unfold user_id at 1.
    destruct (search_user (by_login u)) as [e|user]; [discriminate |].
    cbn [answer obind otry]. rewrite Hu. cbn [negb obind otry].
    rewrite IH by done. by rewrite <- app_assoc.
Qed.

Lemma get_user_ids_from_stops (pre : list string) (u : string)
  (post : list string) :
  ∀ result : list value,
    forallb (user_found search_user) pre = true →
    get_user_ids_from search_user result (pre ++ u :: post)
    = match search_user (by_login u) with
      | inl e => FailJson ("Could not get user: " ++ e)
      | inr user =>
          if truthy_obj user
          then get_user_ids_from search_user
                 (result ++ map (user_id search_user) pre
                  ++ [obj_get user "id"])%list post
          else FailJson ("Could not find user " ++ u)
      end.
Proof.
  induction pre as [|p pre IH]; intros result Hpre.
  - cbn [app get_user_ids_from map].
    destruct (search_user (by_login u)) as [e|user]; [reflexivity |].
    cbn [answer obind otry].
    destruct (truthy_obj user); reflexivity.
  - cbn [forallb] in Hpre. apply andb_prop in Hpre as [Hp Hpre].
    unfold user_found in Hp. cbn [app get_user_ids_from map].
    unfold user_id at 1.
    destruct (search_user (by_login p)) as [e|user]; [discriminate |].
    cbn [answer obind otry]. rewrite Hp. cbn [negb obind otry].
    rewrite IH by done.
    destruct (search_user (by_login u)) as [e|found]; [reflexivity |].
    destruct (truthy_obj found); [| reflexivity].
    by rewrite <- !app_assoc.
Qed.

End Users.

(** When every login is found, [get_user_ids] returns the identifiers of the
    users, one per login and in the order of the logins. *)
Theorem get_user_ids_in_order (search_user : dict → string + object)
  (users : list string) :
  forallb (user_found search_user) users = true →
  get_user_ids search_user users
  = Return (map (user_id search_user) users).
Proof.
  intros Hall. unfold get_user_ids. by rewrite get_user_ids_from_all.
Qed.

Lemma get_user_ids_in_order_witness :
  get_user_ids search_admin ["admin"; "admin"] = Return [VInt 4; VInt 4].
Proof.
  rewrite get_user_ids_in_order by (vm_compute; reflexivity).
  vm_compute. reflexivity.
Defined.

(** [get_user_ids] stops at the first login that is not found, with
    ["Could not find user "] and the login, and at the first search that
    raises, with ["Could not get user: "] and the server's message; the
    logins after it are not searched and no list is returned. *)
Theorem get_user_ids_stops (search_user : dict → string + object)
  (pre : list string) (u : string) (post : list string) :
  forallb (user_found search_user) pre = true →
  (∀ user, search_user (by_login u) = inr user → truthy_obj user = false →
     get_user_ids search_user (pre ++ u :: post)
     = FailJson ("Could not find user " ++ u))
  ∧ (∀ e, search_user (by_login u) = inl e →
       get_user_ids search_user (pre ++ u :: post)
       = FailJson ("Could not get user: " ++ e)).
Proof.
  intros Hpre. unfold get_user_ids. split.
  - intros user Hu Hfalse.
    rewrite get_user_ids_from_stops by done. by rewrite Hu, Hfalse.
  - intros e Hu.
    rewrite get_user_ids_from_stops by done. by rewrite Hu.
Qed.

Lemma get_user_ids_stops_witness :
  get_user_ids search_admin ["admin"; "nobody"; "down"]
  = FailJson "Could not find user nobody"
  ∧ get_user_ids search_admin ["admin"; "down"; "nobody"]
    = FailJson "Could not get user: 500 Internal Server Error".
Proof.
  split.
  - destruct (get_user_ids_stops search_admin ["admin"] "nobody" ["down"])
      as [Hmissing _]; [vm_compute; reflexivity |].
    apply (Hmissing None); vm_compute; reflexivity.
  - destruct (get_user_ids_stops search_admin ["admin"] "down" ["nobody"])
      as [_ Herror]; [vm_compute; reflexivity |].
    apply Herror. vm_compute. reflexivity.
Defined.

(** ** Starting the module *)

(** What the file does, run as a script, by what is installed.  With both
    packages it is [main].  Without [foreman_utils] it fails with the message
    of the [ImportError], or, python-foreman missing too, with the message
    that python-foreman is required.  With [foreman_utils] but without
    python-foreman it ends in [NameError] while importing [foreman_utils],
    whose [except] clause reads [module]; it makes no call, and the message
    that python-foreman is required is not produced. *)
Theorem run_module_by_installation {Remote} (theforeman : Foreman Remote)
  (inst : installation) (module : AnsibleModule) (w : world Remote) :
  run_module theforeman inst module w
  = match foreman_import inst, foreman_utils_import inst with
    | None, None => main theforeman module w
    | None, Some msg => (FailJson msg, w)
    | Some _, None => (NameError "module", w)
    | Some _, Some _ =>
        (FailJson
           "python-foreman module is required. See https://github.com/Nosmoht/python-foreman.",
         w)
    end.
Proof.
  unfold run_module, import_foreman_ldap, import_foreman_utils, bind, lift,
    main_checked.
  destruct (foreman_import inst) as [e|], (foreman_utils_import inst) as [m|];
    reflexivity.
Qed.

(** ** The first call *)

(** Every run of [ensure] begins with the search for the LDAP source, and
    that search is by [name] alone: no other parameter of the task, the
    password included, is part of it. *)
Theorem ensure_first_call {Remote} (theforeman : Foreman Remote)
  (module : AnsibleModule) (r : Remote) :
  ∃ rest,
    calls (ensure theforeman module (World r [])).2
    = SearchAuthSourceLdap {["name" := dict_get (params module) "name"]}
      :: rest.
Proof.
  assert (Hfetch : ∃ rest1,
    calls (fetch_ldap theforeman
             {["name" := dict_get (params module) "name"]} (World r [])).2
    = SearchAuthSourceLdap {["name" := dict_get (params module) "name"]}
      :: rest1).
  { unfold fetch_ldap, try_except, bind, reading, fail_json, ret.
    cbn [remote calls app].
    destruct (search_auth_source_ldap theforeman r _) as [e|found];
      cbn [answer]; [by eexists |].
    destruct (truthy_obj found); cbn [remote calls app]; [| by eexists].
    destruct (get_auth_source_ldap theforeman r _); cbn [answer];
      by eexists. }
  destruct Hfetch as [rest1 Hfetch].
  unfold ensure, bind.
  destruct (fetch_ldap theforeman _ (World r [])) as [o1 w1].
  cbn [snd] in Hfetch.
  destruct o1 as [ldap| | |]; try by eexists.
  pose proof (build_data_reads theforeman module w1)
    as [_ (cs & Hcs & _)].
  destruct (build_data theforeman module w1) as [o2 w2].
  cbn [snd] in Hcs. rewrite Hfetch in Hcs.
  destruct o2 as [data| | |]; try (cbn [snd]; rewrite Hcs; by eexists).
  destruct (decide_action_shape theforeman
              (dict_get (params module) "state") ldap data w2)
    as [[-> _] | [(-> & _) | [(-> & _) | (-> & _)]]];
    rewrite Hcs; by eexists.
Qed.

(** ** Clearing the associations *)

(** C6, where it fails: a task with [organizations] at the empty list and
    [state] at [present], on a record that holds the request's value at
    every comparison key, builds a working attribute set with
    [organization_ids] at the empty list, but never sends it.  The loop of
    the comparator finds no differing key, the call of [organizations_equal]
    that would compare the associations ends in [NameError], and the run
    makes no mutating call and leaves the server, and so the record's
    associations, as they were. *)
Theorem empty_list_not_sent {Remote} (theforeman : Foreman Remote)
  (module : AnsibleModule) (r : Remote) (ldap : dict)
  (w1 w2 : world Remote) (data : dict) :
  fetch_ldap theforeman {["name" := dict_get (params module) "name"]}
    (World r []) = (Return (Some ldap), w1) →
  build_data theforeman module w1 = (Return data, w2) →
  ldap ≠ ∅ →
  dict_get (params module) "state" = VStr "present" →
  organizations module = Some [] →
  (∀ k v, k ∈ cmp_keys → data !! k = Some v → ldap !! k = Some v) →
  data !! "organization_ids" = Some (VList [])
  ∧ (ensure theforeman module (World r [])).1
    = NameError "organizations_equal"
  ∧ List.filter mutating (calls (ensure theforeman module (World r [])).2)
    = []
  ∧ remote (ensure theforeman module (World r [])).2 = r.
Proof.
  intros Hfetch Hbuild Hldap Hstate Horgs Hsame.
  destruct (before_decision _ _ _ _ _ _ _ Hfetch Hbuild) as [Hr Hquiet].
  split.
  { destruct (build_data_inv _ _ _ _ _ Hbuild) as [-> _].
    rewrite request_lookup.
    rewrite (bool_decide_eq_false_2 ("organization_ids" = "location_ids"))
      by done.
    rewrite bool_decide_eq_true_2 by done.
    unfold organization_ids. by rewrite Horgs. }
  rewrite (ensure_steps _ _ _ _ _ _ _ Hfetch Hbuild), Hstate.
  rewrite decide_action_unbound; [done | | done |].
  - cbn [truthy_obj]. by rewrite bool_decide_eq_false_2.
  - change (default ∅ (Some ldap)) with ldap.
    apply not_true_is_false. intros Hdiff.
    apply existsb_exists in Hdiff as (k & Hk & Hdiffers).
    apply list_elem_of_In in Hk.
    unfold key_differs, dict_has, dict_get in Hdiffers.
    apply andb_prop in Hdiffers as [Hhas Hne].
    apply bool_decide_eq_true_1 in Hhas as [v Hv].
    rewrite Hv, (Hsame k v Hk Hv) in Hne.
    change (default VNone (Some v)) with v in Hne.
    by rewrite py_eq_refl in Hne.
Qed.

(** The task of the EXAMPLES with [organizations: []], on a server whose
    record equals the task on every comparison key and is assigned to the
    organization [1]: nothing is sent, and the record keeps its
    organization. *)
Lemma empty_list_not_sent_witness :
  (ensure in_memory (test_ldap_in (Some []) None)
     (World assigned_server [])).1
  = NameError "organizations_equal"
  ∧ List.filter mutating
      (calls (ensure in_memory (test_ldap_in (Some []) None)
                (World assigned_server [])).2) = []
  ∧ remote (ensure in_memory (test_ldap_in (Some []) None)
              (World assigned_server [])).2 = assigned_server.
Proof.
  apply (empty_list_not_sent in_memory (test_ldap_in (Some []) None)
           assigned_server
           (<["organization_ids" := VList [VInt 1]]> (<["id" := VInt 1]>
              (<["port" := VInt 389]> (<["host" := VStr "127.0.0.1"]>
                 {["name" := VStr "Test LDAP"]}))))
           (World assigned_server
              [SearchAuthSourceLdap {["name" := VStr "Test LDAP"]};
               GetAuthSourceLdap (VInt 1)])
           (World assigned_server
              [SearchAuthSourceLdap {["name" := VStr "Test LDAP"]};
               GetAuthSourceLdap (VInt 1)])
           (<["organization_ids" := VList []]> (<["port" := VInt 389]>
              (<["host" := VStr "127.0.0.1"]>
                 {["name" := VStr "Test LDAP"]})))).
  - vm_compute. reflexivity.
  - vm_compute. reflexivity.
  - intros Hempty.
    apply (f_equal (λ m : dict, m !! "id")) in Hempty.
    vm_compute in Hempty. discriminate.
  - vm_compute. reflexivity.
  - vm_compute. reflexivity.
  - intros k v Hk.
    unfold cmp_keys in Hk. rewrite !elem_of_cons, elem_of_nil in Hk.
    repeat (destruct Hk as [->|Hk];
            [vm_compute; intros H; inversion H; reflexivity |]).
    destruct Hk.
Defined.
